(** * video_analyser: a shallow embedding of [app.py]

    The program is a Streamlit page that takes an uploaded media file,
    converts it to WAV (pydub), transcribes it (Whisper) and sends the
    transcript with a prompt to a generative model (Gemini).

    The embedding follows the source function by function.  File names,
    prompts and file contents are [string]s: sequences of bytes, a Python
    [str] being held in its UTF-8 encoding (in which the bytes of "." and
    "/" occur only as these characters).  The file system is a finite map
    from paths to contents.  What the program takes from outside is in
    the class [Services]: the temp-name generator, the part of [str.lower]
    that is not ASCII, the directories in which a file can be created,
    the pydub codec, the Whisper model and the Gemini model. *)

From Stdlib Require Import Ascii String ZArith Lia.
From stdpp Require Import gmap strings list fin_maps infinite.

Local Open Scope Z_scope.

(** ** The Python string operations the program uses *)

(** Characters built from their codes, for use inside string constants. *)
Definition nl : string := String (Ascii.ascii_of_nat 10) "".
Definition dquote : string := String (Ascii.ascii_of_nat 34) "".

(** [s.isascii()]: every byte of the string is below 128. *)
Definition is_ascii_char (c : ascii) : bool :=
  (Ascii.nat_of_ascii c <? 128)%nat.

Fixpoint is_ascii (s : string) : bool :=
  match s with
  | EmptyString => true
  | String c s' => is_ascii_char c && is_ascii s'
  end.

(** [str.lower] of an ASCII string: 'A'..'Z' become 'a'..'z' and every
    other character stays.  (On other strings [str.lower] follows the
    Unicode case mapping: see [str_lower] below.) *)
Definition lower_char (c : ascii) : ascii :=
  let n := Ascii.nat_of_ascii c in
  if ((65 <=? n)%nat && (n <=? 90)%nat)%bool then Ascii.ascii_of_nat (n + 32) else c.

Fixpoint lower (s : string) : string :=
  match s with
  | EmptyString => EmptyString
  | String c s' => String (lower_char c) (lower s')
  end.

(** [p.rfind(c)]: the highest index of [c] in [p], or [-1]. *)
Fixpoint rfind_from (c : ascii) (p : string) (i last : Z) : Z :=
  match p with
  | EmptyString => last
  | String a p' => rfind_from c p' (i + 1) (if Ascii.eqb a c then i else last)
  end.

Definition rfind (c : ascii) (p : string) : Z := rfind_from c p 0 (-1).

(** [p[:k]] and [p[k:]] for an index [0 <= k]. *)
Fixpoint str_take (k : nat) (p : string) : string :=
  match k, p with
  | S k', String a p' => String a (str_take k' p')
  | _, _ => EmptyString
  end.

Fixpoint str_drop (k : nat) (p : string) : string :=
  match k, p with
  | S k', String _ p' => str_drop k' p'
  | _, _ => p
  end.

(** [p[i:i+1] != extsep] *)
Definition not_dot_at (p : string) (i : Z) : bool :=
  match String.get (Z.to_nat i) p with
  | Some a => negb (Ascii.eqb a ".")
  | None => true
  end.

(** The loop of [genericpath._splitext] that skips leading dots:
    [while filenameIndex < dotIndex], answer [true] as soon as a
    character other than the dot is met.  [n] bounds the iterations by
    [dotIndex - filenameIndex], the number of times the loop can run. *)
Fixpoint has_stem (p : string) (n : nat) (filenameIndex dotIndex : Z) : bool :=
  match n with
  | O => false
  | S n' =>
      if filenameIndex <? dotIndex then
        if not_dot_at p filenameIndex then true
        else has_stem p n' (filenameIndex + 1) dotIndex
      else false
  end.

(** [os.path.splitext] (posixpath: sep "/", no altsep, extsep "."). *)
Definition splitext (p : string) : string * string :=
  let sepIndex := rfind "/" p in
  let dotIndex := rfind "." p in
  if ((sepIndex <? dotIndex)
      && has_stem p (Z.to_nat (dotIndex - (sepIndex + 1))) (sepIndex + 1) dotIndex)%bool
  then (str_take (Z.to_nat dotIndex) p, str_drop (Z.to_nat dotIndex) p)
  else (p, EmptyString).

(** [x in [a, b, c]] on strings. *)
Definition str_in (x : string) (l : list string) : bool :=
  existsb (String.eqb x) l.

(** Truth value of an optional string: [None] and the empty string are
    false. *)
Definition truthy (o : option string) : bool :=
  match o with
  | Some (String _ _) => true
  | _ => false
  end.

(** ** Exceptions and results *)

Inductive exn : Type :=
  | KeyError (key : string)
  | FileNotFoundError (path : string)
  | CouldntDecodeError (path : string)
  | TranscriptionError (path : string)
  | GenerationError (prompt : string)
  | OSError (strerror : string)
  | ValueError (message : string).

Inductive outcome (A : Type) : Type :=
  | Returned (a : A)
  | Raised (e : exn).

Arguments Returned {A} a.
Arguments Raised {A} e.

(** ** Suffixes of temp files

    [tempfile] names a new file [tmp], eight random characters, then the
    suffix; it opens the file with [os.open], which refuses a name with a
    NUL character ([ValueError]) and a name longer than [NAME_MAX] bytes
    ([OSError], ENAMETOOLONG). *)

Definition NAME_MAX : nat := 255.

Fixpoint has_nul (s : string) : bool :=
  match s with
  | EmptyString => false
  | String c s' => Ascii.eqb c (Ascii.ascii_of_nat 0) || has_nul s'
  end.

(** The exception [tempfile.NamedTemporaryFile(suffix=..)] raises because
    of the suffix, if it does. *)
Definition temp_suffix_error (suffix : string) : option exn :=
  if has_nul suffix then Some (ValueError "embedded null byte")
  else if (NAME_MAX <? 11 + String.length suffix)%nat
       then Some (OSError "File name too long")
       else None.

(** ** Credential resolution *)

Definition GOOGLE_API_KEY : string := "GOOGLE_API_KEY".

(** [st.secrets[key]]: raises when the key is not in the store. *)
Definition secrets_getitem (secrets : gmap string string) (key : string)
  : outcome string :=
  match secrets !! key with
  | Some v => Returned v
  | None => Raised (KeyError key)
  end.

(** [os.getenv(key)]: [None] when the variable is not set. *)
Definition os_getenv (environ : gmap string string) (key : string)
  : option string :=
  environ !! key.

(** [get_api_key]: [try: return st.secrets[..]  except: return os.getenv(..)] *)
Definition get_api_key (secrets environ : gmap string string) : option string :=
  match secrets_getitem secrets GOOGLE_API_KEY with
  | Returned v => Some v
  | Raised _ => os_getenv environ GOOGLE_API_KEY
  end.

(** ** The effects of the pipeline

    A computation reads and changes the file system and emits events: the
    calls it makes to the operating system, to the external libraries and
    to the Streamlit page.  It returns a value or raises an exception. *)

Inductive event : Type :=
  | TempCreated (path : string)            (* tempfile.NamedTemporaryFile *)
  | FileWritten (path data : string)       (* write / export *)
  | FileUnlinked (path : string)           (* os.unlink *)
  | FromFileCalled (path : string)         (* AudioSegment.from_file *)
  | TranscribeCalled (path : string)       (* whisper_model.transcribe *)
  | GenerateCalled (prompt : string)       (* model.generate_content *)
  | StSpinner (text : string)
  | StError (body : string)
  | StPageConfig (page_title layout : string)
  | StTitle (body : string)
  | StColumns (spec : list Z)
  | StFileUploader (label : string) (types : list string)
  | StTextArea (label value : string)
  | StInfo (body : string)
  | StButton (label : string)
  | StTabs (labels : list string)
  | StMarkdown (body : string) (unsafe_allow_html : bool).

Record result (A : Type) : Type := Result {
  out : outcome A;
  files : gmap string string;
  log : list event
}.

Arguments Result {A} out files log.
Arguments out {A} r.
Arguments files {A} r.
Arguments log {A} r.

Definition M (A : Type) : Type := gmap string string → result A.

Definition run {A} (m : M A) (σ : gmap string string) : result A := m σ.

Definition ret {A} (a : A) : M A := λ σ, Result (Returned a) σ [].

Definition raise {A} (e : exn) : M A := λ σ, Result (Raised e) σ [].

Definition bind {A B} (m : M A) (k : A → M B) : M B := λ σ,
  match m σ with
  | Result (Returned a) σ1 l1 =>
      match k a σ1 with
      | Result o σ2 l2 => Result o σ2 (l1 ++ l2)
      end
  | Result (Raised e) σ1 l1 => Result (Raised e) σ1 l1
  end.

#[global] Instance M_ret : MRet M := @ret.
#[global] Instance M_bind : MBind M := λ A B k m, bind m k.

Definition emit (e : event) : M unit := λ σ, Result (Returned tt) σ [e].

(** [try: body finally: final]: [final] runs however [body] ends; the
    result is [body]'s unless [final] itself raises. *)
Definition try_finally {A} (body : M A) (final : M unit) : M A := λ σ,
  match body σ with
  | Result o σ1 l1 =>
      match final σ1 with
      | Result (Returned _) σ2 l2 => Result o σ2 (l1 ++ l2)
      | Result (Raised e) σ2 l2 => Result (Raised e) σ2 (l1 ++ l2)
      end
  end.

(** ** The external services *)

Class Services : Type := {
  (** An [AudioSegment]: decoded audio held in memory. *)
  Audio : Type;
  (** The name [tempfile] picks for a new file, from the files that exist
      and the requested suffix. *)
  temp_name : gmap string string → string → string;
  (** [str.lower] on a string that is not ASCII (Unicode case mapping). *)
  unicode_lower : string → string;
  (** The exception of [open(path, "wb+")] for a path that is not an
      existing file, when no file can be created there (the directory is
      missing, the path is empty or names a directory); [None] when the
      file can be created. *)
  create_error : string → option exn;
  (** pydub/ffmpeg: decoding of a file (its path and content). *)
  decode : string → string → option Audio;
  (** pydub: the WAV encoding of decoded audio. *)
  encode_wav : Audio → string;
  (** Whisper: the text of a file (its path and content). *)
  whisper_transcribe : string → string → option string;
  (** Gemini: the text generated for a prompt. *)
  generate_content : string → option string
}.

(** [tempfile] never returns the name of an existing file. *)
Definition temp_names_fresh `{Services} : Prop :=
  ∀ (σ : gmap string string) suffix, σ !! temp_name σ suffix = None.

Record UploadedFile : Type := {
  name : string;
  content : string
}.

Record page_input : Type := {
  uploaded : option UploadedFile;   (* st.file_uploader *)
  prompt_text : string;             (* st.text_area *)
  button_pressed : bool             (* st.button *)
}.

Section Pipeline.
Context `{Services}.

(** *** The Python runtime and the operating system *)

(** [s.lower()] *)
Definition str_lower (s : string) : string :=
  if is_ascii s then lower s else unicode_lower s.

(** [with tempfile.NamedTemporaryFile(delete=False, suffix=..) as f]:
    a new empty file, whose name is [f.name]; an exception, and no file,
    when the suffix cannot be part of a file name. *)
Definition NamedTemporaryFile (suffix : string) : M string := λ σ,
  match temp_suffix_error suffix with
  | Some e => Result (Raised e) σ []
  | None =>
      let path := temp_name σ suffix in
      Result (Returned path) (<[path := ""]> σ) [TempCreated path]
  end.

(** What stops [open(path, "wb+")], if anything: an existing file is
    opened and truncated, a new one is created where that is possible. *)
Definition open_error (path : string) (σ : gmap string string) : option exn :=
  match σ !! path with
  | Some _ => None
  | None => create_error path
  end.

Definition file_write (path data : string) : M unit := λ σ,
  Result (Returned tt) (<[path := data]> σ) [FileWritten path data].

Definition os_path_exists (path : string) : M bool := λ σ,
  Result (Returned (bool_decide (is_Some (σ !! path)))) σ [].

Definition os_unlink (path : string) : M unit := λ σ,
  match σ !! path with
  | Some _ => Result (Returned tt) (delete path σ) [FileUnlinked path]
  | None => Result (Raised (FileNotFoundError path)) σ []
  end.

(** *** External libraries *)

Definition AudioSegment_from_file (file_path : string) : M Audio := λ σ,
  match σ !! file_path with
  | None => Result (Raised (FileNotFoundError file_path)) σ [FromFileCalled file_path]
  | Some data =>
      match decode file_path data with
      | None => Result (Raised (CouldntDecodeError file_path)) σ [FromFileCalled file_path]
      | Some audio => Result (Returned audio) σ [FromFileCalled file_path]
      end
  end.

(** [audio.export(output_path, format="wav")]: opens the output file,
    then writes the encoding. *)
Definition AudioSegment_export (audio : Audio) (output_path : string) : M unit :=
  λ σ,
  match open_error output_path σ with
  | Some e => Result (Raised e) σ []
  | None => file_write output_path (encode_wav audio) σ
  end.

Definition whisper_model_transcribe (audio_path : string) : M string := λ σ,
  match σ !! audio_path with
  | None => Result (Raised (FileNotFoundError audio_path)) σ [TranscribeCalled audio_path]
  | Some data =>
      match whisper_transcribe audio_path data with
      | None => Result (Raised (TranscriptionError audio_path)) σ [TranscribeCalled audio_path]
      | Some text => Result (Returned text) σ [TranscribeCalled audio_path]
      end
  end.

Definition model_generate_content (prompt : string) : M string := λ σ,
  match generate_content prompt with
  | None => Result (Raised (GenerationError prompt)) σ [GenerateCalled prompt]
  | Some text => Result (Returned text) σ [GenerateCalled prompt]
  end.

(** [with st.spinner(text): body] *)
Definition st_spinner {A} (text : string) (body : M A) : M A :=
  emit (StSpinner text);; body.

Definition st_error (body : string) : M unit := emit (StError body).

(** *** The program *)

Definition extract_audio (file_path output_path : string) : M unit :=
  audio ← AudioSegment_from_file file_path;
  AudioSegment_export audio output_path.

Definition transcribe_audio (audio_path : string) : M string :=
  whisper_model_transcribe audio_path.

Definition analyze_text (text prompt_template : string) : M string :=
  let full_prompt :=
    prompt_template +:+ (nl +:+ nl +:+ "Transcription:" +:+ nl) +:+ text in
  model_generate_content full_prompt.

Definition unsupported_message : string :=
  "Unsupported file format. Please upload a video or audio file.".

Definition process_file (uploaded_file : UploadedFile) (prompt_template : string)
  : M (option string * option string) :=
  let file_extension := str_lower (snd (splitext (name uploaded_file))) in
  file_path ← (tmp_file ← NamedTemporaryFile file_extension;
               file_write tmp_file (content uploaded_file);;
               mret tmp_file);
  audio_path ← NamedTemporaryFile ".wav";
  try_finally
    (let rest : M (option string * option string) :=
       transcription ← st_spinner "Transcribing audio..."
                         (transcribe_audio audio_path);
       analysis ← st_spinner "Analyzing content..."
                    (analyze_text transcription prompt_template);
       mret (Some transcription, Some analysis) in
     if str_in file_extension [".mp4"; ".mov"; ".avi"] then
       st_spinner "Extracting audio from video..."
         (extract_audio file_path audio_path);;
       rest
     else if str_in file_extension [".m4a"; ".wav"; ".mp3"] then
       st_spinner "Converting audio to WAV format..."
         (extract_audio file_path audio_path);;
       rest
     else
       st_error unsupported_message;;
       mret (None, None))
    (b ← os_path_exists file_path;
     (if b : bool then os_unlink file_path else mret tt);;
     b' ← os_path_exists audio_path;
     if b' : bool then os_unlink audio_path else mret tt).

Definition get_download_link (text filename : string) : string :=
  let b64 := text in   (* text.encode(), then b64.decode() *)
  "<a href=" +:+ dquote +:+ "data:text/plain;charset=utf-8," +:+ b64 +:+ dquote
    +:+ " download=" +:+ dquote +:+ filename +:+ dquote
    +:+ ">Download " +:+ filename +:+ "</a>".

Definition default_prompt : string :=
  "You are an expert interviewer. Please analyze this content and provide:" +:+ nl
  +:+ "1. Key points discussed" +:+ nl
  +:+ "2. Overall tone and delivery" +:+ nl
  +:+ "3. Areas of strength" +:+ nl
  +:+ "4. Areas for improvement" +:+ nl
  +:+ "5. Overall assessment".

Definition how_to_use : string :=
  nl +:+ "        ### How to use:" +:+ nl
  +:+ "        1. Upload your video/audio file" +:+ nl
  +:+ "        2. Customize the analysis prompt if needed" +:+ nl
  +:+ "        3. Click 'Process File'" +:+ nl
  +:+ "        4. Download transcription and analysis" +:+ nl
  +:+ "        ".

(** The result views of [main]: the two tabs with their download links. *)
Definition show_results (transcription analysis : string) : list event :=
  [ StTabs ["Analysis"; "Transcription"];
    StMarkdown "### Analysis" false;
    StMarkdown analysis false;
    StMarkdown (get_download_link analysis "analysis.txt") true;
    StMarkdown "### Transcription" false;
    StMarkdown transcription false;
    StMarkdown (get_download_link transcription "transcription.txt") true ].

Definition emit_all (l : list event) : M unit := λ σ, Result (Returned tt) σ l.

Definition main (page : page_input) : M unit :=
  emit (StPageConfig "Video/Audio Analyzer" "wide");;
  emit (StTitle "🎥 Video/Audio Content Analyzer");;
  emit (StColumns [2; 1]);;
  emit (StFileUploader "Choose a video or audio file"
          ["mp4"; "mov"; "avi"; "m4a"; "wav"; "mp3"]);;
  emit (StTextArea "Customize your analysis prompt" default_prompt);;
  emit (StInfo how_to_use);;
  match uploaded page with
  | Some uploaded_file =>
      emit (StButton "Process File");;
      if button_pressed page then
        r ← process_file uploaded_file (prompt_text page);
        let '(transcription, analysis) := r in
        if (truthy transcription && truthy analysis)%bool then
          emit_all (show_results (default "" transcription) (default "" analysis))
        else mret tt
      else mret tt
  | None => mret tt
  end.

End Pipeline.

(** ** Observations on a run *)

(** The temp files a run created, in order. *)
Fixpoint created (l : list event) : list string :=
  match l with
  | [] => []
  | TempCreated path :: l' => path :: created l'
  | _ :: l' => created l'
  end.

(** How many of the given paths are files. *)
Definition count_existing (σ : gmap string string) (paths : list string) : nat :=
  length (filter (λ p, is_Some (σ !! p)) paths).

(** The temp files created by a run that are still there after it. *)
Definition leftover {A} (r : result A) : nat :=
  count_existing (files r) (created (log r)).

(** Kinds of events. *)
Definition is_temp_created (e : event) : bool :=
  match e with TempCreated _ => true | _ => false end.

Definition is_file_event (e : event) : bool :=
  match e with
  | TempCreated _ | FileWritten _ _ | FileUnlinked _ => true
  | _ => false
  end.

(** A call to one of the three processing steps' libraries. *)
Definition is_processing (e : event) : bool :=
  match e with
  | FromFileCalled _ | TranscribeCalled _ | GenerateCalled _ => true
  | _ => false
  end.

(** An element of the result views of the page. *)
Definition is_result_view (e : event) : bool :=
  match e with
  | StTabs _ | StMarkdown _ _ => true
  | _ => false
  end.

(** The events [process_file] can emit. *)
Definition is_pipeline_event (e : event) : bool :=
  match e with
  | TempCreated _ | FileWritten _ _ | FileUnlinked _
  | FromFileCalled _ | TranscribeCalled _ | GenerateCalled _
  | StSpinner _ | StError _ => true
  | _ => false
  end.

(** The events the [try] block of [process_file] can emit. *)
Definition is_body_event (e : event) : bool :=
  match e with
  | FileWritten _ _ | FromFileCalled _ | TranscribeCalled _ | GenerateCalled _
  | StSpinner _ | StError _ => true
  | _ => false
  end.

(** The events of the three steps and their spinners. *)
Definition is_step_event (e : event) : bool :=
  match e with
  | FileWritten _ _ | FromFileCalled _ | TranscribeCalled _ | GenerateCalled _
  | StSpinner _ => true
  | _ => false
  end.

(** The result views among the events of the page. *)
Definition result_views (l : list event) : list event :=
  List.filter is_result_view l.

(** The rejection message comes before any file event: no file is
    created or written before [st.error] is called. *)
Fixpoint rejects_before_writing (l : list event) : bool :=
  match l with
  | [] => false
  | StError _ :: _ => true
  | e :: l' => negb (is_file_event e) && rejects_before_writing l'
  end.

(** The accepted extensions, as the specification lists them. *)
Definition accepted_extensions : list string :=
  [".mp4"; ".mov"; ".avi"; ".m4a"; ".wav"; ".mp3"].

(** Every event a computation emits, from any file system, is of kind [P]. *)
Definition emits {A} (P : event → bool) (m : M A) : Prop :=
  ∀ σ, forallb P (log (m σ)) = true.

Section Anatomy.
Context `{Services}.

(** The [try] block of [process_file]. *)
Definition pipeline_body (fp ap ext prompt_template : string)
  : M (option string * option string) :=
  let rest : M (option string * option string) :=
    transcription ← st_spinner "Transcribing audio..." (transcribe_audio ap);
    analysis ← st_spinner "Analyzing content..."
                 (analyze_text transcription prompt_template);
    mret (Some transcription, Some analysis) in
  if str_in ext [".mp4"; ".mov"; ".avi"] then
    st_spinner "Extracting audio from video..." (extract_audio fp ap);;
    rest
  else if str_in ext [".m4a"; ".wav"; ".mp3"] then
    st_spinner "Converting audio to WAV format..." (extract_audio fp ap);;
    rest
  else
    st_error unsupported_message;;
    mret (None, None).

(** The [finally] block of [process_file]. *)
Definition cleanup (fp ap : string) : M unit :=
  b ← os_path_exists fp;
  (if b : bool then os_unlink fp else mret tt);;
  b' ← os_path_exists ap;
  if b' : bool then os_unlink ap else mret tt.

(** What the [try] block does once the audio is extracted. *)
Definition after_extraction (ap prompt_template : string)
  : M (option string * option string) :=
  transcription ← st_spinner "Transcribing audio..." (transcribe_audio ap);
  analysis ← st_spinner "Analyzing content..."
               (analyze_text transcription prompt_template);
  mret (Some transcription, Some analysis).

(** The spinner text shown while the audio is extracted. *)
Definition extraction_spinner (ext : string) : string :=
  if str_in ext [".mp4"; ".mov"; ".avi"]
  then "Extracting audio from video..."
  else "Converting audio to WAV format...".

(** The test of the two [if]s of the [try] block taken together. *)
Definition supported (ext : string) : bool :=
  str_in ext [".mp4"; ".mov"; ".avi"] || str_in ext [".m4a"; ".wav"; ".mp3"].

(** The names [process_file] gives to its intermediate values. *)
Definition file_extension (uploaded_file : UploadedFile) : string :=
  str_lower (snd (splitext (name uploaded_file))).

Definition file_path (uploaded_file : UploadedFile) (σ : gmap string string)
  : string :=
  temp_name σ (file_extension uploaded_file).

Definition audio_path (uploaded_file : UploadedFile) (σ : gmap string string)
  : string :=
  temp_name (<[file_path uploaded_file σ := content uploaded_file]>
               (<[file_path uploaded_file σ := ""]> σ)) ".wav".

(** The file system when the [try] block is entered. *)
Definition staged (uploaded_file : UploadedFile) (σ : gmap string string)
  : gmap string string :=
  <[audio_path uploaded_file σ := ""]>
    (<[file_path uploaded_file σ := content uploaded_file]>
       (<[file_path uploaded_file σ := ""]> σ)).

(** The events of the two [with] blocks before the [try]. *)
Definition staging_log (uploaded_file : UploadedFile) (σ : gmap string string)
  : list event :=
  [ TempCreated (file_path uploaded_file σ);
    FileWritten (file_path uploaded_file σ) (content uploaded_file);
    TempCreated (audio_path uploaded_file σ) ].

(** The events of the [finally] block entered with files [σ]. *)
Definition cleanup_log (fp ap : string) (σ : gmap string string) : list event :=
  (if bool_decide (is_Some (σ !! fp)) then [FileUnlinked fp] else [])
  ++ (if bool_decide (is_Some (delete fp σ !! ap)) then [FileUnlinked ap] else []).

(** The three steps on a run of [process_file] from [σ] all return:
    extraction, then transcription with text [t], then analysis with
    text [a]. *)
Definition steps_return (uploaded_file : UploadedFile) (prompt_template : string)
    (σ : gmap string string) (t a : string) : Prop :=
  ∃ σ1 l1 σ2 l2 σ3 l3,
    extract_audio (file_path uploaded_file σ) (audio_path uploaded_file σ)
      (staged uploaded_file σ) = Result (Returned tt) σ1 l1
    ∧ transcribe_audio (audio_path uploaded_file σ) σ1 = Result (Returned t) σ2 l2
    ∧ analyze_text t prompt_template σ2 = Result (Returned a) σ3 l3.

(** One of the three steps raises [e]. *)
Definition step_raises (uploaded_file : UploadedFile) (prompt_template : string)
    (σ : gmap string string) (e : exn) : Prop :=
  (∃ σ1 l1,
      extract_audio (file_path uploaded_file σ) (audio_path uploaded_file σ)
        (staged uploaded_file σ) = Result (Raised e) σ1 l1)
  ∨ (∃ σ1 l1 σ2 l2,
      extract_audio (file_path uploaded_file σ) (audio_path uploaded_file σ)
        (staged uploaded_file σ) = Result (Returned tt) σ1 l1
      ∧ transcribe_audio (audio_path uploaded_file σ) σ1 = Result (Raised e) σ2 l2)
  ∨ (∃ σ1 l1 σ2 l2 t σ3 l3,
      extract_audio (file_path uploaded_file σ) (audio_path uploaded_file σ)
        (staged uploaded_file σ) = Result (Returned tt) σ1 l1
      ∧ transcribe_audio (audio_path uploaded_file σ) σ1 = Result (Returned t) σ2 l2
      ∧ analyze_text t prompt_template σ2 = Result (Raised e) σ3 l3).

(** The temp names picked on a run from [σ] are names of no existing
    file, as [tempfile] guarantees. *)
Definition fresh_temp_names (uploaded_file : UploadedFile)
    (σ : gmap string string) : Prop :=
  σ !! file_path uploaded_file σ = None
  ∧ (<[file_path uploaded_file σ := content uploaded_file]>
       (<[file_path uploaded_file σ := ""]> σ))
      !! audio_path uploaded_file σ = None.

(** The page elements [main] draws before it looks at the upload. *)
Definition page_header : list event :=
  [ StPageConfig "Video/Audio Analyzer" "wide";
    StTitle "🎥 Video/Audio Content Analyzer";
    StColumns [2; 1];
    StFileUploader "Choose a video or audio file"
      ["mp4"; "mov"; "avi"; "m4a"; "wav"; "mp3"];
    StTextArea "Customize your analysis prompt" default_prompt;
    StInfo how_to_use ].
End Anatomy.

(** ** Stand-ins for the external services

    Concrete services to run the program on: temp names longer than every
    existing name, a file system in which only the empty path cannot be
    created, a codec that accepts any non-empty file and prefixes a
    header, a transcriber and a model that answer from their input. *)

Definition longest (σ : gmap string string) : nat :=
  max_list (String.length <$> elements (dom σ)).

Fixpoint padding (n : nat) : string :=
  match n with
  | O => ""
  | S n' => String "x" (padding n')
  end.

Definition stub_temp_name (σ : gmap string string) (suffix : string) : string :=
  "/tmp/tmp" +:+ padding (longest σ) +:+ suffix.

Definition stub_create_error (path : string) : option exn :=
  match path with
  | EmptyString => Some (FileNotFoundError path)
  | _ => None
  end.

Definition stub_decode (path data : string) : option string :=
  match data with
  | EmptyString => None
  | _ => Some data
  end.

Definition stub_encode_wav (audio : string) : string := "RIFF" +:+ audio.

Definition stub_transcribe (path data : string) : option string :=
  Some ("heard " +:+ data).

Definition stub_generate (prompt : string) : option string :=
  Some ("analysis of " +:+ prompt).

Definition stub : Services := {|
  Audio := string;
  temp_name := stub_temp_name;
  unicode_lower := lower;
  create_error := stub_create_error;
  decode := stub_decode;
  encode_wav := stub_encode_wav;
  whisper_transcribe := stub_transcribe;
  generate_content := stub_generate
|}.

(** A model that always fails, and a transcriber that hears nothing. *)
Definition stub_offline : Services := {|
  Audio := string;
  temp_name := stub_temp_name;
  unicode_lower := lower;
  create_error := stub_create_error;
  decode := stub_decode;
  encode_wav := stub_encode_wav;
  whisper_transcribe := stub_transcribe;
  generate_content := λ _, None
|}.

Definition stub_silent : Services := {|
  Audio := string;
  temp_name := stub_temp_name;
  unicode_lower := lower;
  create_error := stub_create_error;
  decode := stub_decode;
  encode_wav := stub_encode_wav;
  whisper_transcribe := λ _ _, Some "";
  generate_content := stub_generate
|}.

(** Inputs to run the program on. *)
Definition notes_txt : UploadedFile := {| name := "notes.txt"; content := "hello" |}.
Definition talk_wav : UploadedFile := {| name := "talk.wav"; content := "hello" |}.
Definition clip_MP4 : UploadedFile := {| name := "clip.MP4"; content := "frames" |}.
Definition voice_Wav : UploadedFile := {| name := "voice.Wav"; content := "samples" |}.

Definition talk_page : page_input :=
  {| uploaded := Some talk_wav; prompt_text := "p"; button_pressed := true |}.

(** A secrets store that has the key with an empty value, and an
    environment that has it set. *)
Definition empty_secret : gmap string string := {[ GOOGLE_API_KEY := "" ]}.
Definition env_with_key : gmap string string := {[ GOOGLE_API_KEY := "key-from-env" ]}.
Definition secret_with_key : gmap string string := {[ GOOGLE_API_KEY := "key-from-secrets" ]}.

(** A file system with one MP3 file. *)
Definition one_mp3 : gmap string string := {[ "in.mp3" := "abc" ]}.

(** The credential chain in the words of the specification: the sources
    are tried in order and the first non-empty result wins. *)
Definition first_non_empty (sources : list (option string)) : option string :=
  List.find truthy sources ≫= id.

(** A file name with its extension in lower case, and the upload so
    named. *)
Definition lower_ext (p : string) : string :=
  fst (splitext p) +:+ lower (snd (splitext p)).


(** Calls to each of the three libraries, and how many a log has. *)
Definition is_from_file_call (e : event) : bool :=
  match e with FromFileCalled _ => true | _ => false end.

Definition is_transcribe_call (e : event) : bool :=
  match e with TranscribeCalled _ => true | _ => false end.

Definition is_generate_call (e : event) : bool :=
  match e with GenerateCalled _ => true | _ => false end.

Definition count_events (P : event → bool) (l : list event) : nat :=
  length (List.filter P l).

(** The string has no dot. *)
Fixpoint no_dot (s : string) : bool :=
  match s with
  | EmptyString => true
  | String a s' => negb (Ascii.eqb a ".") && no_dot s'
  end.

(** More inputs: a name without extension, an upload that does not
    decode, names whose extension cannot be the suffix of a temp file
    (250 characters after the dot; a NUL character), and pages in their
    other states. *)
Definition README : UploadedFile := {| name := "README"; content := "text" |}.
Definition empty_wav : UploadedFile := {| name := "empty.wav"; content := "" |}.

Definition nul : string := String (Ascii.ascii_of_nat 0) "".

Definition long_ext : UploadedFile :=
  {| name := "a." +:+ padding 250; content := "hello" |}.
Definition nul_ext : UploadedFile :=
  {| name := "clip.mp4" +:+ nul; content := "frames" |}.

Definition idle_page : page_input :=
  {| uploaded := None; prompt_text := "p"; button_pressed := false |}.
Definition unpressed_page : page_input :=
  {| uploaded := Some talk_wav; prompt_text := "p"; button_pressed := false |}.
Definition notes_page : page_input :=
  {| uploaded := Some notes_txt; prompt_text := "p"; button_pressed := true |}.
Definition long_ext_page : page_input :=
  {| uploaded := Some long_ext; prompt_text := "p"; button_pressed := true |}.
Definition empty_page : page_input :=
  {| uploaded := Some empty_wav; prompt_text := "p"; button_pressed := true |}.

(** A transcriber that always fails. *)
Definition stub_deaf : Services := {|
  Audio := string;
  temp_name := stub_temp_name;
  unicode_lower := lower;
  create_error := stub_create_error;
  decode := stub_decode;
  encode_wav := stub_encode_wav;
  whisper_transcribe := λ _ _, None;
  generate_content := stub_generate
|}.

(** ** Properties *)

Example splitext_upper : splitext "clip.MP4" = ("clip", ".MP4").
Proof. reflexivity. Qed.
Example splitext_hidden : splitext ".bashrc" = (".bashrc", "").
Proof. reflexivity. Qed.
Example splitext_dir_dot : splitext "a.b/c" = ("a.b/c", "").
Proof. reflexivity. Qed.
Example splitext_last_dot : splitext "a/..x.tar.gz" = ("a/..x.tar", ".gz").
Proof. reflexivity. Qed.
Example splitext_dots : splitext "..." = ("...", "").
Proof. reflexivity. Qed.
Example splitext_trailing : splitext "a." = ("a", ".").
Proof. reflexivity. Qed.
Example lower_ascii : lower ".Wav[Z@`{" = ".wav[z@`{".
Proof. reflexivity. Qed.

Example run_txt :
  process_file (H := stub) {| name := "notes.txt"; content := "hello" |} "p" ∅
  = Result (Returned (None, None)) ∅
      [ TempCreated "/tmp/tmp.txt"; FileWritten "/tmp/tmp.txt" "hello";
        TempCreated "/tmp/tmpxxxxxxxxxxxx.wav";
        StError unsupported_message;
        FileUnlinked "/tmp/tmp.txt"; FileUnlinked "/tmp/tmpxxxxxxxxxxxx.wav" ].
Proof. vm_compute. reflexivity. Qed.

Section Properties.
Context `{Services}.

(** *** Running computations *)

Lemma run_bind {A B} (m : M A) (k : A → M B) σ :
  (m ≫= k) σ =
    match m σ with
    | Result (Returned a) σ1 l1 =>
        match k a σ1 with
        | Result o σ2 l2 => Result o σ2 (l1 ++ l2)
        end
    | Result (Raised e) σ1 l1 => Result (Raised e) σ1 l1
    end.
Proof. reflexivity. Qed.

Lemma process_file_eq uploaded_file prompt_template :
  process_file uploaded_file prompt_template =
    (fp ← (tmp_file ← NamedTemporaryFile (file_extension uploaded_file);
           file_write tmp_file (content uploaded_file);;
           mret tmp_file);
     ap ← NamedTemporaryFile ".wav";
     try_finally
       (pipeline_body fp ap (file_extension uploaded_file) prompt_template)
       (cleanup fp ap)).
Proof. reflexivity. Qed.

Lemma cleanup_run fp ap σ :
  cleanup fp ap σ
  = Result (Returned tt) (delete ap (delete fp σ)) (cleanup_log fp ap σ).
Proof.
  unfold cleanup, cleanup_log.
  rewrite run_bind. cbv [os_path_exists].
  rewrite run_bind.
  destruct (σ !! fp) as [d|] eqn:Hfp.
  - rewrite bool_decide_eq_true_2 by eauto.
    cbv [os_unlink]. rewrite Hfp. rewrite run_bind.
    destruct (delete fp σ !! ap) as [d'|] eqn:Hap.
    + rewrite bool_decide_eq_true_2 by eauto. rewrite Hap. reflexivity.
    + rewrite bool_decide_eq_false_2 by (intros [? ?]; congruence).
      cbv [mret M_ret ret]. rewrite (delete_id _ ap) by done. reflexivity.
  - rewrite bool_decide_eq_false_2 by (intros [? ?]; congruence).
    cbv [mret M_ret ret]. rewrite run_bind.
    rewrite (delete_id σ fp) by done.
    destruct (σ !! ap) as [d'|] eqn:Hap.
    + rewrite bool_decide_eq_true_2 by eauto.
      cbv [os_unlink]. rewrite Hap. reflexivity.
    + rewrite bool_decide_eq_false_2 by (intros [? ?]; congruence).
      rewrite (delete_id _ ap) by done. reflexivity.
Qed.

(** The first temp file cannot be created: [process_file] raises before
    it does anything else. *)
Lemma process_file_unstaged uploaded_file prompt_template σ e :
  temp_suffix_error (file_extension uploaded_file) = Some e →
  process_file uploaded_file prompt_template σ = Result (Raised e) σ [].
Proof.
  intros He. rewrite process_file_eq.
  cbv [mbind M_bind bind NamedTemporaryFile]. by rewrite He.
Qed.

(** Both temp files are created: the [try] block runs, then the
    [finally] block. *)
Lemma process_file_staged uploaded_file prompt_template σ :
  temp_suffix_error (file_extension uploaded_file) = None →
  process_file uploaded_file prompt_template σ =
    match pipeline_body (file_path uploaded_file σ) (audio_path uploaded_file σ)
            (file_extension uploaded_file) prompt_template
            (staged uploaded_file σ)
    with
    | Result o σ1 l1 =>
        Result o
          (delete (audio_path uploaded_file σ)
             (delete (file_path uploaded_file σ) σ1))
          (staging_log uploaded_file σ
           ++ l1
           ++ cleanup_log (file_path uploaded_file σ)
                (audio_path uploaded_file σ) σ1)
    end.
Proof.
  intros He. rewrite process_file_eq.
  cbv [mbind M_bind bind NamedTemporaryFile]. rewrite He.
  change (temp_suffix_error ".wav") with (@None exn).
  cbv [file_write mret M_ret ret try_finally].
  fold (file_path uploaded_file σ). fold (audio_path uploaded_file σ).
  fold (staged uploaded_file σ).
  destruct (pipeline_body _ _ _ _ _) as [o σ1 l1].
  rewrite cleanup_run. unfold staging_log. reflexivity.
Qed.

Lemma process_file_run uploaded_file prompt_template σ :
  process_file uploaded_file prompt_template σ =
    match temp_suffix_error (file_extension uploaded_file) with
    | Some e => Result (Raised e) σ []
    | None =>
        match pipeline_body (file_path uploaded_file σ)
                (audio_path uploaded_file σ)
                (file_extension uploaded_file) prompt_template
                (staged uploaded_file σ)
        with
        | Result o σ1 l1 =>
            Result o
              (delete (audio_path uploaded_file σ)
                 (delete (file_path uploaded_file σ) σ1))
              (staging_log uploaded_file σ
               ++ l1
               ++ cleanup_log (file_path uploaded_file σ)
                    (audio_path uploaded_file σ) σ1)
        end
    end.
Proof.
  destruct (temp_suffix_error _) as [e|] eqn:He.
  - by apply process_file_unstaged.
  - by apply process_file_staged.
Qed.

(** *** The kinds of events a computation emits *)

Lemma emits_weaken {A} (P Q : event → bool) (m : M A) :
  (∀ e, P e = true → Q e = true) → emits P m → emits Q m.
Proof.
  intros HPQ Hm σ. specialize (Hm σ).
  rewrite forallb_forall in *. auto.
Qed.

Lemma emits_ret {A} P (a : A) : emits P (mret a).
Proof. intros σ. reflexivity. Qed.

Lemma emits_emit P e : P e = true → emits P (emit e).
Proof. intros He σ. simpl. by rewrite He. Qed.

Lemma emits_bind {A B} P (m : M A) (k : A → M B) :
  emits P m → (∀ a, emits P (k a)) → emits P (m ≫= k).
Proof.
  intros Hm Hk σ. rewrite run_bind.
  specialize (Hm σ). destruct (m σ) as [[a|e] σ1 l1]; simpl in *; [|done].
  specialize (Hk a σ1). destruct (k a σ1) as [o σ2 l2]; simpl in *.
  rewrite forallb_app, Hm, Hk. reflexivity.
Qed.

Lemma emits_extract_audio fp ap : emits is_step_event (extract_audio fp ap).
Proof.
  intros σ. unfold extract_audio. rewrite run_bind.
  cbv [AudioSegment_from_file AudioSegment_export file_write].
  destruct (σ !! fp) as [d|]; [destruct (decode fp d)|]; try reflexivity.
  destruct (open_error ap σ); reflexivity.
Qed.

Lemma emits_transcribe_audio ap : emits is_step_event (transcribe_audio ap).
Proof.
  intros σ. cbv [transcribe_audio whisper_model_transcribe].
  destruct (σ !! ap) as [d|]; [destruct (whisper_transcribe ap d)|]; reflexivity.
Qed.

Lemma emits_analyze_text text prompt_template :
  emits is_step_event (analyze_text text prompt_template).
Proof.
  intros σ. cbv [analyze_text model_generate_content].
  destruct (generate_content _); reflexivity.
Qed.

Lemma emits_st_spinner {A} text (body : M A) :
  emits is_step_event body → emits is_step_event (st_spinner text body).
Proof.
  intros Hb. unfold st_spinner. apply emits_bind; [by apply emits_emit|].
  intros _. exact Hb.
Qed.

Lemma emits_after_extraction ap prompt_template :
  emits is_step_event (after_extraction ap prompt_template).
Proof.
  unfold after_extraction.
  apply emits_bind; [apply emits_st_spinner, emits_transcribe_audio|].
  intros t. apply emits_bind; [apply emits_st_spinner, emits_analyze_text|].
  intros a. apply emits_ret.
Qed.

(** *** The two ways through the [try] block *)

Lemma pipeline_body_unsupported fp ap ext prompt_template σ :
  supported ext = false →
  pipeline_body fp ap ext prompt_template σ
  = Result (Returned (None, None)) σ [StError unsupported_message].
Proof.
  unfold supported, pipeline_body. intros [-> ->]%orb_false_elim. reflexivity.
Qed.

Lemma pipeline_body_supported fp ap ext prompt_template :
  supported ext = true →
  pipeline_body fp ap ext prompt_template
  = (st_spinner (extraction_spinner ext) (extract_audio fp ap);;
     after_extraction ap prompt_template).
Proof.
  unfold supported, pipeline_body, extraction_spinner.
  destruct (str_in ext [".mp4"; ".mov"; ".avi"]); [reflexivity|].
  simpl. intros ->. reflexivity.
Qed.

Lemma emits_pipeline_body_supported fp ap ext prompt_template :
  supported ext = true →
  emits is_step_event (pipeline_body fp ap ext prompt_template).
Proof.
  intros Hs. rewrite pipeline_body_supported by done.
  apply emits_bind; [apply emits_st_spinner, emits_extract_audio|].
  intros _. apply emits_after_extraction.
Qed.

Lemma emits_pipeline_body fp ap ext prompt_template :
  emits is_body_event (pipeline_body fp ap ext prompt_template).
Proof.
  destruct (supported ext) eqn:Hs.
  - apply (emits_weaken is_step_event); [by intros []|].
    by apply emits_pipeline_body_supported.
  - intros σ. by rewrite pipeline_body_unsupported.
Qed.

Lemma created_app l1 l2 : created (l1 ++ l2) = created l1 ++ created l2.
Proof.
  induction l1 as [|e l1 IH]; [done|].
  destruct e; simpl; by rewrite ?IH.
Qed.

Lemma created_nil l :
  forallb (λ e, negb (is_temp_created e)) l = true → created l = [].
Proof.
  induction l as [|e l IH]; [done|]. simpl.
  intros [He Hl]%andb_prop. destruct e; simpl in *; auto; discriminate.
Qed.

Lemma created_body_nil fp ap ext prompt_template σ :
  created (log (pipeline_body fp ap ext prompt_template σ)) = [].
Proof.
  apply created_nil.
  apply (emits_weaken is_body_event); [|apply emits_pipeline_body].
  by intros [].
Qed.

Lemma created_cleanup_log fp ap σ : created (cleanup_log fp ap σ) = [].
Proof. unfold cleanup_log. by repeat case_bool_decide. Qed.

Lemma count_existing_cleaned fp ap (σ : gmap string string) :
  count_existing (delete ap (delete fp σ)) [fp; ap] = 0%nat.
Proof.
  unfold count_existing.
  assert (Hfp : ¬ is_Some (delete ap (delete fp σ) !! fp)).
  { intros [d Hd]. apply lookup_delete_Some in Hd as [_ Hd].
    apply lookup_delete_Some in Hd as [? _]. done. }
  assert (Hap : ¬ is_Some (delete ap (delete fp σ) !! ap)).
  { intros [d Hd]. apply lookup_delete_Some in Hd as [? _]. done. }
  rewrite filter_cons_False by done. rewrite filter_cons_False by done.
  reflexivity.
Qed.

(** *** Temp files *)

(** C1.  Whatever the uploaded file, the prompt, the file system and the
    behaviour of the three steps, a run of [process_file] leaves none of
    the temp files it created: on every exit path (normal return,
    rejection of the extension, a step raising) the count of leftover
    temp files is zero. *)
Theorem process_file_no_leftover uploaded_file prompt_template σ :
  leftover (process_file uploaded_file prompt_template σ) = 0%nat.
Proof.
  rewrite process_file_run.
  destruct (temp_suffix_error _) as [e|]; [reflexivity|].
  pose proof (created_body_nil (file_path uploaded_file σ)
                (audio_path uploaded_file σ) (file_extension uploaded_file)
                prompt_template (staged uploaded_file σ)) as Hbody.
  destruct (pipeline_body _ _ _ _ _) as [o σ1 l1]. simpl in Hbody.
  unfold leftover. cbn [files log].
  rewrite !created_app, Hbody, created_cleanup_log.
  apply count_existing_cleaned.
Qed.

(** *** The steps, one by one *)

Lemma extract_audio_run fp op σ :
  extract_audio fp op σ =
    match σ !! fp with
    | None => Result (Raised (FileNotFoundError fp)) σ [FromFileCalled fp]
    | Some d =>
        match decode fp d with
        | None => Result (Raised (CouldntDecodeError fp)) σ [FromFileCalled fp]
        | Some a =>
            match open_error op σ with
            | Some e => Result (Raised e) σ [FromFileCalled fp]
            | None =>
                Result (Returned tt) (<[op := encode_wav a]> σ)
                  [FromFileCalled fp; FileWritten op (encode_wav a)]
            end
        end
    end.
Proof.
  unfold extract_audio. rewrite run_bind.
  cbv [AudioSegment_from_file AudioSegment_export file_write].
  destruct (σ !! fp) as [d|]; [destruct (decode fp d)|]; try reflexivity.
  destruct (open_error op σ); reflexivity.
Qed.

(** An existing file can be opened for writing. *)
Lemma open_error_existing op (σ : gmap string string) :
  is_Some (σ !! op) → open_error op σ = None.
Proof. intros [d Hd]. unfold open_error. by rewrite Hd. Qed.

Lemma pipeline_body_supported_run fp ap ext prompt_template σ :
  supported ext = true →
  pipeline_body fp ap ext prompt_template σ =
    match extract_audio fp ap σ with
    | Result (Raised e) σ1 l1 =>
        Result (Raised e) σ1 (StSpinner (extraction_spinner ext) :: l1)
    | Result (Returned _) σ1 l1 =>
        match transcribe_audio ap σ1 with
        | Result (Raised e) σ2 l2 =>
            Result (Raised e) σ2
              (StSpinner (extraction_spinner ext) :: l1
               ++ StSpinner "Transcribing audio..." :: l2)
        | Result (Returned t) σ2 l2 =>
            match analyze_text t prompt_template σ2 with
            | Result (Raised e) σ3 l3 =>
                Result (Raised e) σ3
                  (StSpinner (extraction_spinner ext) :: l1
                   ++ StSpinner "Transcribing audio..." :: l2
                   ++ StSpinner "Analyzing content..." :: l3)
            | Result (Returned a) σ3 l3 =>
                Result (Returned (Some t, Some a)) σ3
                  (StSpinner (extraction_spinner ext) :: l1
                   ++ StSpinner "Transcribing audio..." :: l2
                   ++ StSpinner "Analyzing content..." :: l3)
            end
        end
    end.
Proof.
  intros Hs. rewrite pipeline_body_supported by done.
  unfold after_extraction, st_spinner.
  rewrite !run_bind. cbv [emit].
  destruct (extract_audio fp ap σ) as [[[]|e1] σ1 l1]; [|reflexivity].
  rewrite !run_bind.
  destruct (transcribe_audio ap σ1) as [[t|e2] σ2 l2]; [|reflexivity].
  rewrite !run_bind.
  destruct (analyze_text t prompt_template σ2) as [[a|e3] σ3 l3];
    cbv [mret M_ret ret]; cbn [app]; by rewrite ?app_nil_r.
Qed.

Lemma supported_accepted ext :
  supported ext = true ↔ In ext accepted_extensions.
Proof.
  unfold supported, str_in, accepted_extensions. cbn [existsb In].
  rewrite !orb_true_iff, !String.eqb_eq. intuition congruence.
Qed.

Lemma unsupported_not_accepted ext :
  supported ext = false ↔ ¬ In ext accepted_extensions.
Proof.
  rewrite <- supported_accepted. by destruct (supported ext).
Qed.

(** The accepted extensions are good suffixes of a temp file. *)
Lemma supported_suffix_ok ext :
  supported ext = true → temp_suffix_error ext = None.
Proof.
  intros Hs%supported_accepted. unfold accepted_extensions in Hs.
  cbn [In] in Hs.
  destruct Hs as [<-|[<-|[<-|[<-|[<-|[<-|[]]]]]]]; reflexivity.
Qed.

Lemma process_file_supported_run uploaded_file prompt_template σ :
  supported (file_extension uploaded_file) = true →
  process_file uploaded_file prompt_template σ =
    match pipeline_body (file_path uploaded_file σ) (audio_path uploaded_file σ)
            (file_extension uploaded_file) prompt_template
            (staged uploaded_file σ)
    with
    | Result o σ1 l1 =>
        Result o
          (delete (audio_path uploaded_file σ)
             (delete (file_path uploaded_file σ) σ1))
          (staging_log uploaded_file σ
           ++ l1
           ++ cleanup_log (file_path uploaded_file σ)
                (audio_path uploaded_file σ) σ1)
    end.
Proof. intros Hs. by apply process_file_staged, supported_suffix_ok. Qed.

Lemma staged_audio uploaded_file σ :
  staged uploaded_file σ !! audio_path uploaded_file σ = Some "".
Proof. unfold staged. apply lookup_insert_eq. Qed.

(** *** Rejection of an unsupported extension *)

Lemma process_file_unsupported uploaded_file prompt_template σ :
  temp_suffix_error (file_extension uploaded_file) = None →
  supported (file_extension uploaded_file) = false →
  process_file uploaded_file prompt_template σ =
    Result (Returned (None, None))
      (delete (audio_path uploaded_file σ)
         (delete (file_path uploaded_file σ) (staged uploaded_file σ)))
      (staging_log uploaded_file σ
       ++ [StError unsupported_message]
       ++ cleanup_log (file_path uploaded_file σ) (audio_path uploaded_file σ)
            (staged uploaded_file σ)).
Proof.
  intros Hok Hs. rewrite process_file_staged by done.
  by rewrite pipeline_body_unsupported.
Qed.

Lemma fresh_temp_names_distinct uploaded_file σ :
  fresh_temp_names uploaded_file σ →
  file_path uploaded_file σ ≠ audio_path uploaded_file σ.
Proof.
  intros [_ Hap] Heq. rewrite <- Heq in Hap.
  by rewrite lookup_insert_eq in Hap.
Qed.

Lemma fresh_temp_names_audio uploaded_file σ :
  fresh_temp_names uploaded_file σ → σ !! audio_path uploaded_file σ = None.
Proof.
  intros Hfresh. pose proof (fresh_temp_names_distinct _ _ Hfresh) as Hne.
  destruct Hfresh as [_ Hap].
  by rewrite !lookup_insert_ne in Hap.
Qed.

Lemma unstage uploaded_file σ (σ1 : gmap string string) :
  fresh_temp_names uploaded_file σ →
  (∀ p, p ≠ file_path uploaded_file σ → p ≠ audio_path uploaded_file σ →
        σ1 !! p = σ !! p) →
  delete (audio_path uploaded_file σ) (delete (file_path uploaded_file σ) σ1) = σ.
Proof.
  intros Hfresh Hsame. apply map_eq. intros p.
  destruct (decide (p = audio_path uploaded_file σ)) as [->|Hap].
  { rewrite lookup_delete_eq. symmetry. by apply fresh_temp_names_audio. }
  rewrite lookup_delete_ne by done.
  destruct (decide (p = file_path uploaded_file σ)) as [->|Hfp].
  { rewrite lookup_delete_eq. symmetry. apply Hfresh. }
  rewrite lookup_delete_ne by done. by apply Hsame.
Qed.

Lemma staged_other uploaded_file σ p :
  p ≠ file_path uploaded_file σ → p ≠ audio_path uploaded_file σ →
  staged uploaded_file σ !! p = σ !! p.
Proof.
  intros Hfp Hap. unfold staged. by rewrite !lookup_insert_ne.
Qed.

(** C2, as the code has it.  When the extension is not accepted,
    [process_file] creates the two temp files (writing the upload into
    the first) before it tests the extension; it then shows the rejection
    message, deletes both files and returns [(None, None)]: no step is
    run and, the temp names being fresh, the file system ends as it
    started.  When the extension cannot be the suffix of a temp file, the
    creation of the first one raises instead: nothing is created or
    written, no message is shown and nothing is returned. *)
Theorem unsupported_rejected_after_staging uploaded_file prompt_template σ :
  supported (file_extension uploaded_file) = false →
  (temp_suffix_error (file_extension uploaded_file) = None →
   fresh_temp_names uploaded_file σ →
   process_file uploaded_file prompt_template σ =
     Result (Returned (None, None)) σ
       [ TempCreated (file_path uploaded_file σ);
         FileWritten (file_path uploaded_file σ) (content uploaded_file);
         TempCreated (audio_path uploaded_file σ);
         StError unsupported_message;
         FileUnlinked (file_path uploaded_file σ);
         FileUnlinked (audio_path uploaded_file σ) ])
  ∧ (∀ e,
       temp_suffix_error (file_extension uploaded_file) = Some e →
       process_file uploaded_file prompt_template σ = Result (Raised e) σ []).
Proof.
  intros Hs. split; [|intros e He; by apply process_file_unstaged].
  intros Hok Hfresh. rewrite process_file_unsupported by done.
  pose proof (fresh_temp_names_distinct _ _ Hfresh) as Hne.
  rewrite (unstage _ _ _ Hfresh) by (intros; by apply staged_other).
  unfold cleanup_log, staged, staging_log.
  rewrite lookup_insert_ne, lookup_insert_eq by done.
  rewrite lookup_delete_ne, lookup_insert_eq by done.
  rewrite !bool_decide_eq_true_2 by eauto. reflexivity.
Qed.

(** *** What a run returns *)

(** C4, as the code has it.  [process_file] returns [(None, None)] when
    the extension is not supported and the temp files can be created; it
    returns [(Some transcript, Some analysis)] when the extension is
    supported and extraction, transcription and analysis all return; it
    returns nothing else; and when the extension cannot be the suffix of
    a temp file it returns nothing: it raises the exception of the
    creation. *)
Theorem process_file_returns uploaded_file prompt_template σ :
  (temp_suffix_error (file_extension uploaded_file) = None →
   supported (file_extension uploaded_file) = false →
   out (process_file uploaded_file prompt_template σ) = Returned (None, None))
  ∧ (∀ t a,
       supported (file_extension uploaded_file) = true →
       steps_return uploaded_file prompt_template σ t a →
       out (process_file uploaded_file prompt_template σ)
       = Returned (Some t, Some a))
  ∧ (∀ v,
       out (process_file uploaded_file prompt_template σ) = Returned v →
       (v = (None, None)
        ∧ supported (file_extension uploaded_file) = false
        ∧ temp_suffix_error (file_extension uploaded_file) = None)
       ∨ (∃ t a, v = (Some t, Some a)
                 ∧ supported (file_extension uploaded_file) = true
                 ∧ steps_return uploaded_file prompt_template σ t a))
  ∧ (∀ e,
       temp_suffix_error (file_extension uploaded_file) = Some e →
       out (process_file uploaded_file prompt_template σ) = Raised e).
Proof.
  split; [|split; [|split]].
  - intros Hok Hs. by rewrite process_file_unsupported.
  - intros t a Hs (σ1 & l1 & σ2 & l2 & σ3 & l3 & He & Ht & Ha).
    rewrite process_file_supported_run, pipeline_body_supported_run by done.
    by rewrite He, Ht, Ha.
  - intros v. destruct (supported (file_extension uploaded_file)) eqn:Hs.
    + rewrite process_file_supported_run, pipeline_body_supported_run by done.
      unfold steps_return.
      destruct (extract_audio _ _ _) as [[[]|e1] σ1 l1] eqn:He; [|done].
      destruct (transcribe_audio _ σ1) as [[t|e2] σ2 l2] eqn:Ht; [|done].
      destruct (analyze_text t _ σ2) as [[a|e3] σ3 l3] eqn:Ha; [|done].
      cbn [out]. intros [= <-]. right. exists t, a.
      split; [done|]. split; [done|]. by exists σ1, l1, σ2, l2, σ3, l3.
    + destruct (temp_suffix_error (file_extension uploaded_file)) as [e|] eqn:Hok.
      * by rewrite (process_file_unstaged _ _ _ _ Hok).
      * rewrite process_file_unsupported by done. cbn [out].
        intros [= <-]. by left.
  - intros e He. by rewrite (process_file_unstaged _ _ _ _ He).
Qed.

(** *** The events of a run *)

Lemma pipeline_body_supported_log fp ap ext prompt_template σ :
  supported ext = true →
  ∃ l, log (pipeline_body fp ap ext prompt_template σ)
       = StSpinner (extraction_spinner ext) :: FromFileCalled fp :: l.
Proof.
  intros Hs. rewrite pipeline_body_supported_run, extract_audio_run by done.
  destruct (σ !! fp) as [d|]; [|by eexists].
  destruct (decode fp d) as [au|]; [|by eexists].
  destruct (open_error ap σ) as [e1|]; [by eexists|].
  destruct (transcribe_audio ap _) as [[t|e2] σ2 l2]; [|by eexists].
  destruct (analyze_text t _ σ2) as [[a|e3] σ3 l3]; by eexists.
Qed.

Lemma forallb_cleanup_log P fp ap σ :
  (∀ p, P (FileUnlinked p) = true) → forallb P (cleanup_log fp ap σ) = true.
Proof.
  intros HP. unfold cleanup_log.
  repeat case_bool_decide; cbn [app forallb]; by rewrite ?HP.
Qed.

Lemma process_file_events uploaded_file prompt_template σ :
  forallb is_pipeline_event (log (process_file uploaded_file prompt_template σ))
  = true.
Proof.
  rewrite process_file_run.
  destruct (temp_suffix_error _) as [e0|]; [reflexivity|].
  pose proof (emits_pipeline_body (file_path uploaded_file σ)
                (audio_path uploaded_file σ) (file_extension uploaded_file)
                prompt_template (staged uploaded_file σ)) as Hbody.
  destruct (pipeline_body _ _ _ _ _) as [o σ1 l1]. cbn [log] in *.
  rewrite !forallb_app, forallb_cleanup_log by done.
  rewrite andb_true_r. apply andb_true_intro. split; [done|].
  rewrite forallb_forall in *. intros e He.
  specialize (Hbody e He). by destruct e.
Qed.

Lemma process_file_supported_events uploaded_file prompt_template σ :
  supported (file_extension uploaded_file) = true →
  In (FromFileCalled (file_path uploaded_file σ))
     (log (process_file uploaded_file prompt_template σ))
  ∧ ¬ In (StError unsupported_message)
        (log (process_file uploaded_file prompt_template σ)).
Proof.
  intros Hs. rewrite process_file_supported_run by done.
  destruct (pipeline_body_supported_log (file_path uploaded_file σ)
              (audio_path uploaded_file σ) (file_extension uploaded_file)
              prompt_template (staged uploaded_file σ) Hs) as [l Hl].
  pose proof (emits_pipeline_body_supported (file_path uploaded_file σ)
                (audio_path uploaded_file σ) (file_extension uploaded_file)
                prompt_template Hs (staged uploaded_file σ)) as Hbody.
  destruct (pipeline_body _ _ _ _ _) as [o σ1 l1]. cbn [log] in *.
  split.
  - apply in_or_app. right. apply in_or_app. left.
    rewrite Hl. right. by left.
  - intros [Hin|[Hin|Hin]%in_app_or]%in_app_or.
    + unfold staging_log in Hin. cbn [In] in Hin.
      by destruct Hin as [?|[?|[?|[]]]].
    + rewrite forallb_forall in Hbody. by specialize (Hbody _ Hin).
    + pose proof (forallb_cleanup_log is_file_event
                    (file_path uploaded_file σ)
                    (audio_path uploaded_file σ) σ1 (λ _, eq_refl)) as Hc.
      rewrite forallb_forall in Hc. by specialize (Hc _ Hin).
Qed.

(** C5, as the code has it.  The extensions [process_file] accepts are
    exactly the six of the specification.  With one of them as
    (lower-cased) extension of the upload, the run calls the audio
    extraction on the temp copy and shows no rejection.  With any other,
    the run calls none of the three steps; it shows the rejection message
    and returns [(None, None)] when the temp files can be created, and
    when the extension cannot be the suffix of a temp file it raises
    without any message. *)
Theorem accepted_extensions_exact uploaded_file prompt_template σ :
  (In (file_extension uploaded_file) accepted_extensions →
     In (FromFileCalled (file_path uploaded_file σ))
        (log (process_file uploaded_file prompt_template σ))
     ∧ ¬ In (StError unsupported_message)
           (log (process_file uploaded_file prompt_template σ)))
  ∧ (¬ In (file_extension uploaded_file) accepted_extensions →
     forallb (λ e, negb (is_processing e))
       (log (process_file uploaded_file prompt_template σ)) = true
     ∧ (temp_suffix_error (file_extension uploaded_file) = None →
        In (StError unsupported_message)
           (log (process_file uploaded_file prompt_template σ))
        ∧ out (process_file uploaded_file prompt_template σ)
          = Returned (None, None))
     ∧ (∀ e,
          temp_suffix_error (file_extension uploaded_file) = Some e →
          process_file uploaded_file prompt_template σ
          = Result (Raised e) σ [])).
Proof.
  split.
  - intros Hs%supported_accepted. by apply process_file_supported_events.
  - intros Hs%unsupported_not_accepted.
    split; [|split].
    + destruct (temp_suffix_error (file_extension uploaded_file)) as [e|] eqn:Hok.
      * by rewrite (process_file_unstaged _ _ _ _ Hok).
      * rewrite process_file_unsupported by done. cbn [log].
        rewrite !forallb_app, forallb_cleanup_log by done. reflexivity.
    + intros Hok. rewrite process_file_unsupported by done. cbn [log out].
      split; [|done]. apply in_or_app. right. by left.
    + intros e He. by apply process_file_unstaged.
Qed.

(** *** The prompt sent to the model *)

Lemma append_assoc (a b c : string) : (a +:+ b) +:+ c = a +:+ (b +:+ c).
Proof.
  induction a as [|x a IH]; [reflexivity|].
  change (String x ((a +:+ b) +:+ c) = String x (a +:+ (b +:+ c))).
  by rewrite IH.
Qed.

(** C3.  [analyze_text] makes one request to the model; the text it
    submits is [prompt_template + "\n\n" + "Transcription:" + "\n" + text],
    and what it returns is the generated text. *)
Theorem analyze_text_prompt text prompt_template σ :
  analyze_text text prompt_template σ =
    let submitted :=
      (((prompt_template +:+ (nl +:+ nl)) +:+ "Transcription:") +:+ nl) +:+ text in
    Result (match generate_content submitted with
            | Some generated => Returned generated
            | None => Raised (GenerationError submitted)
            end) σ [GenerateCalled submitted].
Proof.
  cbv zeta. unfold analyze_text, model_generate_content.
  rewrite !append_assoc.
  by destruct (generate_content _).
Qed.

(** *** The audio normalizer *)


(** *** The page *)

Lemma main_run page uploaded_file σ :
  uploaded page = Some uploaded_file →
  button_pressed page = true →
  main page σ =
    match process_file uploaded_file (prompt_text page) σ with
    | Result (Returned (transcription, analysis)) σ1 l1 =>
        Result (Returned tt) σ1
          (page_header ++ StButton "Process File" :: l1
           ++ (if (truthy transcription && truthy analysis)%bool
               then show_results (default "" transcription) (default "" analysis)
               else []))
    | Result (Raised e) σ1 l1 =>
        Result (Raised e) σ1 (page_header ++ StButton "Process File" :: l1)
    end.
Proof.
  intros Hup Hbtn. unfold main. rewrite Hup, Hbtn.
  rewrite !run_bind. cbv [emit]. rewrite !run_bind.
  destruct (process_file _ _ _) as [[[t a]|e] σ1 l1]; [|reflexivity].
  destruct (truthy t && truthy a)%bool;
    cbv [emit_all mret M_ret ret]; unfold page_header; cbn [app];
    by rewrite ?app_nil_r.
Qed.

Lemma result_views_pipeline l :
  forallb is_pipeline_event l = true → result_views l = [].
Proof.
  unfold result_views. induction l as [|e l IH]; [done|].
  cbn [forallb List.filter]. intros [He Hl]%andb_prop.
  destruct e; try discriminate; by apply IH.
Qed.

Lemma result_views_show t a :
  result_views (show_results t a) = show_results t a.
Proof. reflexivity. Qed.

Lemma truthy_spec o : truthy o = true ↔ ∃ s, o = Some s ∧ s ≠ "".
Proof.
  destruct o as [[|c s]|]; cbn; split; try done.
  - intros (s & [= <-] & Hs). done.
  - intros _. by eexists.
  - intros (s & [=] & _).
Qed.

(** C10.  When a file is uploaded, the button pressed and [process_file]
    returns [(transcription, analysis)]: if both values are non-empty
    strings, the result views [main] draws are the two tabs "Analysis" and
    "Transcription", and in each its heading, the text and the download
    link of the text (to [analysis.txt] and [transcription.txt]); if one
    of them is [None] or empty, [main] draws no result view; so views are
    drawn if and only if both are non-empty. *)
Theorem results_shown_iff_both_nonempty
    page uploaded_file σ transcription analysis σ1 l1 :
  uploaded page = Some uploaded_file →
  button_pressed page = true →
  process_file uploaded_file (prompt_text page) σ
  = Result (Returned (transcription, analysis)) σ1 l1 →
  (∀ t a,
     transcription = Some t → analysis = Some a → t ≠ "" → a ≠ "" →
     result_views (log (main page σ))
     = [ StTabs ["Analysis"; "Transcription"];
         StMarkdown "### Analysis" false;
         StMarkdown a false;
         StMarkdown
           ("<a href=" +:+ dquote +:+ "data:text/plain;charset=utf-8," +:+ a
            +:+ dquote +:+ " download=" +:+ dquote +:+ "analysis.txt" +:+ dquote
            +:+ ">Download analysis.txt</a>") true;
         StMarkdown "### Transcription" false;
         StMarkdown t false;
         StMarkdown
           ("<a href=" +:+ dquote +:+ "data:text/plain;charset=utf-8," +:+ t
            +:+ dquote +:+ " download=" +:+ dquote +:+ "transcription.txt"
            +:+ dquote +:+ ">Download transcription.txt</a>") true ])
  ∧ (transcription = None ∨ transcription = Some ""
     ∨ analysis = None ∨ analysis = Some "" →
     result_views (log (main page σ)) = [])
  ∧ (result_views (log (main page σ)) ≠ []
     ↔ ∃ t a, transcription = Some t ∧ analysis = Some a ∧ t ≠ "" ∧ a ≠ "").
Proof.
  intros Hup Hbtn Hrun.
  pose proof (process_file_events uploaded_file (prompt_text page) σ) as Hev.
  rewrite (main_run _ _ _ Hup Hbtn), Hrun. rewrite Hrun in Hev.
  cbn [log] in *.
  assert (Hviews :
    result_views
      (page_header ++ StButton "Process File" :: l1
       ++ (if (truthy transcription && truthy analysis)%bool
           then show_results (default "" transcription) (default "" analysis)
           else []))
    = if (truthy transcription && truthy analysis)%bool
      then show_results (default "" transcription) (default "" analysis)
      else []).
  { unfold result_views at 1. rewrite List.filter_app.
    cbn [page_header List.filter is_result_view app].
    rewrite List.filter_app.
    fold (result_views l1). rewrite (result_views_pipeline l1 Hev).
    cbn [app]. by destruct (truthy transcription && truthy analysis)%bool. }
  rewrite Hviews. split; [|split].
  - intros t a -> -> Ht Ha.
    destruct t as [|ct t]; [done|]. destruct a as [|ca a]; [done|].
    reflexivity.
  - intros [-> | [-> | [-> | ->]]]; cbn [truthy andb]; try reflexivity;
      by destruct (truthy transcription).
  - destruct (truthy transcription && truthy analysis)%bool eqn:Hb.
    + apply andb_prop in Hb as [(t & -> & Ht)%truthy_spec (a & -> & Ha)%truthy_spec].
      split; [|done]. intros _. by exists t, a.
    + split; [done|]. intros (t & a & -> & -> & Ht & Ha).
      destruct t, a; done.
Qed.
End Properties.

(** ** Credential resolution *)

(** C6, as the code has it.  The secrets store is tried first and its
    value is returned whenever the key is there, empty or not; the
    environment variable is read only when the lookup in the secrets
    store raises, and its value (or [None]) is then the result. *)
Theorem get_api_key_precedence (secrets environ : gmap string string) :
  (∀ v, secrets !! GOOGLE_API_KEY = Some v →
        get_api_key secrets environ = Some v)
  ∧ (secrets !! GOOGLE_API_KEY = None →
     get_api_key secrets environ = os_getenv environ GOOGLE_API_KEY).
Proof.
  unfold get_api_key, secrets_getitem.
  split; [intros v Hv|intros Hv]; by rewrite Hv.
Qed.

Lemma get_api_key_precedence_witness :
  get_api_key secret_with_key env_with_key = Some "key-from-secrets"
  ∧ get_api_key ∅ env_with_key = Some "key-from-env".
Proof.
  split.
  - apply (proj1 (get_api_key_precedence secret_with_key env_with_key)).
    reflexivity.
  - rewrite (proj2 (get_api_key_precedence ∅ env_with_key)); reflexivity.
Defined.

(** An empty value in the secrets store is returned as it is: the
    environment variable is not consulted, so the result is not the first
    non-empty one. *)
Lemma get_api_key_keeps_empty_secret :
  empty_secret !! GOOGLE_API_KEY = Some ""
  ∧ os_getenv env_with_key GOOGLE_API_KEY = Some "key-from-env"
  ∧ get_api_key empty_secret env_with_key = Some ""
  ∧ get_api_key empty_secret env_with_key
    ≠ first_non_empty [ empty_secret !! GOOGLE_API_KEY;
                        os_getenv env_with_key GOOGLE_API_KEY ].
Proof. vm_compute. repeat split; discriminate. Qed.

(** ** Lower case and extensions *)

Lemma append_cons a (s t : string) : String a s +:+ t = String a (s +:+ t).
Proof. reflexivity. Qed.

Lemma append_nil_r (s : string) : s +:+ "" = s.
Proof.
  induction s as [|a s IH]; [reflexivity|]. by rewrite append_cons, IH.
Qed.







Lemma is_ascii_str_drop k p : is_ascii p = true → is_ascii (str_drop k p) = true.
Proof.
  revert p. induction k as [|k IH]; intros p; [by destruct p|].
  destruct p as [|a p]; [done|]. cbn [is_ascii str_drop].
  intros [_ Hp]%andb_prop. by apply IH.
Qed.

Lemma is_ascii_splitext p : is_ascii p = true → is_ascii (snd (splitext p)) = true.
Proof.
  intros Hp. unfold splitext. destruct (_ && _)%bool; cbn [snd]; [|done].
  by apply is_ascii_str_drop.
Qed.















Section CaseInsensitive.
Context `{Services}.

Lemma str_lower_ascii s : is_ascii s = true → str_lower s = lower s.
Proof. intros Hs. unfold str_lower. by rewrite Hs. Qed.

Lemma file_extension_ascii uploaded_file :
  is_ascii (snd (splitext (name uploaded_file))) = true →
  file_extension uploaded_file = lower (snd (splitext (name uploaded_file))).
Proof. intros Ha. unfold file_extension. by apply str_lower_ascii. Qed.


End CaseInsensitive.

(** ** Runs on concrete inputs *)

Example file_extension_MP4 : file_extension (H := stub) clip_MP4 = ".mp4".
Proof. reflexivity. Qed.

Example file_extension_Wav : file_extension (H := stub) voice_Wav = ".wav".
Proof. reflexivity. Qed.

Example lower_ext_MP4 : lower_ext "My Clip.MP4" = "My Clip.mp4".
Proof. reflexivity. Qed.

Example temp_suffix_error_long :
  temp_suffix_error (file_extension (H := stub) long_ext)
  = Some (OSError "File name too long").
Proof. vm_compute. reflexivity. Qed.

Example temp_suffix_error_nul :
  temp_suffix_error (file_extension (H := stub) nul_ext)
  = Some (ValueError "embedded null byte").
Proof. vm_compute. reflexivity. Qed.

(** A ".txt" upload: the two temp files are created, and the upload is
    written to disk, before the rejection message is shown. *)
Lemma unsupported_stages_before_rejecting :
  supported (file_extension (H := stub) notes_txt) = false
  ∧ rejects_before_writing (log (process_file (H := stub) notes_txt "p" ∅)) = false
  ∧ log (process_file (H := stub) notes_txt "p" ∅) !! 1%nat
    = Some (FileWritten "/tmp/tmp.txt" "hello")
  ∧ log (process_file (H := stub) notes_txt "p" ∅) !! 3%nat
    = Some (StError unsupported_message).
Proof. vm_compute. done. Qed.

Lemma unsupported_rejected_after_staging_witness :
  (fresh_temp_names (H := stub) notes_txt ∅
   ∧ supported (file_extension (H := stub) notes_txt) = false
   ∧ process_file (H := stub) notes_txt "p" ∅
     = Result (Returned (None, None)) ∅
         [ TempCreated "/tmp/tmp.txt";
           FileWritten "/tmp/tmp.txt" "hello";
           TempCreated "/tmp/tmpxxxxxxxxxxxx.wav";
           StError unsupported_message;
           FileUnlinked "/tmp/tmp.txt";
           FileUnlinked "/tmp/tmpxxxxxxxxxxxx.wav" ])
  ∧ (supported (file_extension (H := stub) long_ext) = false
     ∧ process_file (H := stub) long_ext "p" ∅
       = Result (Raised (OSError "File name too long")) ∅ []).
Proof.
  assert (Hfresh : fresh_temp_names (H := stub) notes_txt ∅)
    by (split; reflexivity).
  split.
  - split; [exact Hfresh|]. split; [reflexivity|].
    exact (proj1 (unsupported_rejected_after_staging (H := stub) notes_txt "p" ∅
                    eq_refl) eq_refl Hfresh).
  - split; [vm_compute; reflexivity|].
    apply (proj2 (unsupported_rejected_after_staging (H := stub) long_ext "p" ∅
                    ltac:(vm_compute; reflexivity))).
    vm_compute. reflexivity.
Defined.

(** An upload whose extension is not one of the six and is too long for
    the name of a temp file: [process_file] returns neither pair, it
    raises. *)
Lemma long_extension_raises :
  supported (file_extension (H := stub) long_ext) = false
  ∧ out (process_file (H := stub) long_ext "p" ∅)
    = Raised (OSError "File name too long")
  ∧ out (process_file (H := stub) long_ext "p" ∅) ≠ Returned (None, None)
  ∧ ∀ t a, out (process_file (H := stub) long_ext "p" ∅)
           ≠ Returned (Some t, Some a).
Proof. vm_compute. repeat split; try intros ? ?; discriminate. Qed.

(** An upload whose extension is not one of the six and holds a NUL
    character: no rejection message is shown, the run raises. *)
Lemma nul_extension_not_rejected :
  ¬ In (file_extension (H := stub) nul_ext) accepted_extensions
  ∧ process_file (H := stub) nul_ext "p" ∅
    = Result (Raised (ValueError "embedded null byte")) ∅ []
  ∧ ¬ In (StError unsupported_message)
        (log (process_file (H := stub) nul_ext "p" ∅)).
Proof.
  split; [|split].
  - vm_compute. intuition discriminate.
  - vm_compute. reflexivity.
  - vm_compute. tauto.
Qed.

Lemma process_file_returns_witness :
  out (process_file (H := stub) notes_txt "p" ∅) = Returned (None, None)
  ∧ out (process_file (H := stub) talk_wav "p" ∅)
    = Returned (Some "heard RIFFhello",
                Some ("analysis of p" +:+ nl +:+ nl +:+ "Transcription:" +:+ nl
                      +:+ "heard RIFFhello"))
  ∧ ((None, None) = (@None string, @None string)
       ∧ supported (file_extension (H := stub) notes_txt) = false
       ∧ temp_suffix_error (file_extension (H := stub) notes_txt) = None
     ∨ ∃ t a, (None, None) = (Some t, Some a)
              ∧ supported (file_extension (H := stub) notes_txt) = true
              ∧ steps_return (H := stub) notes_txt "p" ∅ t a)
  ∧ out (process_file (H := stub) long_ext "p" ∅)
    = Raised (OSError "File name too long").
Proof.
  split; [|split; [|split]].
  - apply (proj1 (process_file_returns (H := stub) notes_txt "p" ∅));
      reflexivity.
  - apply (proj1 (proj2 (process_file_returns (H := stub) talk_wav "p" ∅))).
    + reflexivity.
    + unfold steps_return. do 6 eexists.
      split; [vm_compute; reflexivity|].
      split; vm_compute; reflexivity.
  - apply (proj1 (proj2 (proj2 (process_file_returns (H := stub) notes_txt "p" ∅)))).
    reflexivity.
  - apply (proj2 (proj2 (proj2 (process_file_returns (H := stub) long_ext "p" ∅)))).
    vm_compute. reflexivity.
Defined.

Lemma accepted_extensions_exact_witness :
  (In (FromFileCalled (file_path (H := stub) talk_wav ∅))
      (log (process_file (H := stub) talk_wav "p" ∅))
   ∧ ¬ In (StError unsupported_message)
         (log (process_file (H := stub) talk_wav "p" ∅)))
  ∧ (In (StError unsupported_message)
        (log (process_file (H := stub) notes_txt "p" ∅))
     ∧ out (process_file (H := stub) notes_txt "p" ∅) = Returned (None, None))
  ∧ process_file (H := stub) nul_ext "p" ∅
    = Result (Raised (ValueError "embedded null byte")) ∅ [].
Proof.
  split; [|split].
  - apply (proj1 (accepted_extensions_exact (H := stub) talk_wav "p" ∅)).
    vm_compute. tauto.
  - apply (proj2 (accepted_extensions_exact (H := stub) notes_txt "p" ∅)).
    + vm_compute. intuition discriminate.
    + reflexivity.
  - apply (proj2 (accepted_extensions_exact (H := stub) nul_ext "p" ∅)).
    + vm_compute. intuition discriminate.
    + vm_compute. reflexivity.
Defined.




(** A run whose transcript is empty: the pipeline returns, and the page
    shows no result view. *)
Lemma results_shown_iff_both_nonempty_witness :
  out (process_file (H := stub_silent) talk_wav "p" ∅)
  = Returned (Some "", Some ("analysis of p" +:+ nl +:+ nl +:+ "Transcription:" +:+ nl))
  ∧ result_views (log (main (H := stub_silent) talk_page ∅)) = []
  ∧ result_views (log (main (H := stub) talk_page ∅))
    = [ StTabs ["Analysis"; "Transcription"];
        StMarkdown "### Analysis" false;
        StMarkdown ("analysis of p" +:+ nl +:+ nl +:+ "Transcription:" +:+ nl
                    +:+ "heard RIFFhello") false;
        StMarkdown
          ("<a href=" +:+ dquote +:+ "data:text/plain;charset=utf-8,"
           +:+ ("analysis of p" +:+ nl +:+ nl +:+ "Transcription:" +:+ nl
                +:+ "heard RIFFhello")
           +:+ dquote +:+ " download=" +:+ dquote +:+ "analysis.txt" +:+ dquote
           +:+ ">Download analysis.txt</a>") true;
        StMarkdown "### Transcription" false;
        StMarkdown "heard RIFFhello" false;
        StMarkdown
          ("<a href=" +:+ dquote +:+ "data:text/plain;charset=utf-8,"
           +:+ "heard RIFFhello"
           +:+ dquote +:+ " download=" +:+ dquote +:+ "transcription.txt"
           +:+ dquote +:+ ">Download transcription.txt</a>") true ].
Proof.
  split; [vm_compute; reflexivity|]. split.
  - edestruct (results_shown_iff_both_nonempty (H := stub_silent)
                 talk_page talk_wav ∅) as (_ & Hnone & _).
    + reflexivity.
    + reflexivity.
    + vm_compute. reflexivity.
    + apply Hnone. right. left. reflexivity.
  - edestruct (results_shown_iff_both_nonempty (H := stub)
                 talk_page talk_wav ∅) as (Hshown & _ & _).
    + reflexivity.
    + reflexivity.
    + vm_compute. reflexivity.
    + apply Hshown; [reflexivity|reflexivity|discriminate|discriminate].
Defined.

(** A run with non-empty transcript and analysis shows the views. *)
Example results_shown :
  result_views (log (main (H := stub) talk_page ∅))
  = show_results "heard RIFFhello"
      ("analysis of p" +:+ nl +:+ nl +:+ "Transcription:" +:+ nl +:+ "heard RIFFhello").
Proof. vm_compute. reflexivity. Qed.

(** A run whose analysis step raises: the exception leaves [process_file],
    and the temp files are gone. *)
Example run_offline :
  out (process_file (H := stub_offline) talk_wav "p" ∅)
  = Raised (GenerationError
              ("p" +:+ nl +:+ nl +:+ "Transcription:" +:+ nl +:+ "heard RIFFhello"))
  ∧ files (process_file (H := stub_offline) talk_wav "p" ∅) = ∅.
Proof. vm_compute. done. Qed.


(** ** Further properties of the pipeline *)

Section Pipeline_more.
Context `{Services}.

(** *** What the steps do to the files *)

Lemma transcribe_audio_run ap σ :
  transcribe_audio ap σ =
    match σ !! ap with
    | None => Result (Raised (FileNotFoundError ap)) σ [TranscribeCalled ap]
    | Some d =>
        match whisper_transcribe ap d with
        | None => Result (Raised (TranscriptionError ap)) σ [TranscribeCalled ap]
        | Some t => Result (Returned t) σ [TranscribeCalled ap]
        end
    end.
Proof. reflexivity. Qed.

Lemma transcribe_audio_inv ap σ o σ' l :
  transcribe_audio ap σ = Result o σ' l → σ' = σ ∧ l = [TranscribeCalled ap].
Proof.
  rewrite transcribe_audio_run.
  destruct (σ !! ap) as [d|]; [destruct (whisper_transcribe ap d)|];
    by intros [= <- <- <-].
Qed.

Lemma analyze_text_inv text prompt_template σ o σ' l :
  analyze_text text prompt_template σ = Result o σ' l →
  σ' = σ ∧ ∃ prompt, l = [GenerateCalled prompt].
Proof.
  cbv [analyze_text model_generate_content].
  destruct (generate_content _); intros [= <- <- <-]; eauto.
Qed.

Lemma extract_audio_inv fp op σ o σ' l :
  extract_audio fp op σ = Result o σ' l →
  (∀ p, p ≠ op → σ' !! p = σ !! p)
  ∧ (l = [FromFileCalled fp] ∨ ∃ w, l = [FromFileCalled fp; FileWritten op w]).
Proof.
  rewrite extract_audio_run.
  destruct (σ !! fp) as [d|]; [destruct (decode fp d)|];
    [destruct (open_error op σ)| |];
    intros [= <- <- <-]; (split; [|eauto]); try done.
  intros p Hp. by rewrite lookup_insert_ne.
Qed.

Lemma pipeline_body_files fp ap ext prompt_template σ p :
  p ≠ ap →
  files (pipeline_body fp ap ext prompt_template σ) !! p = σ !! p.
Proof.
  intros Hp. destruct (supported ext) eqn:Hs.
  - rewrite pipeline_body_supported_run by done.
    destruct (extract_audio fp ap σ) as [[[]|e1] σ1 l1] eqn:He;
      apply extract_audio_inv in He as [He _]; [|by apply He].
    destruct (transcribe_audio ap σ1) as [[t|e2] σ2 l2] eqn:Ht;
      apply transcribe_audio_inv in Ht as [-> _]; [|by apply He].
    destruct (analyze_text t prompt_template σ1) as [[a|e3] σ3 l3] eqn:Ha;
      apply analyze_text_inv in Ha as [-> _]; by apply He.
  - by rewrite pipeline_body_unsupported.
Qed.

(** X1.  With fresh temp names, a run of [process_file] leaves the file
    system exactly as it found it, however the run ends: no file other
    than the two temp files is ever created, changed or deleted. *)
Theorem process_file_restores_files uploaded_file prompt_template σ :
  fresh_temp_names uploaded_file σ →
  files (process_file uploaded_file prompt_template σ) = σ.
Proof.
  intros Hfresh. rewrite process_file_run.
  destruct (temp_suffix_error _) as [e|]; [reflexivity|].
  pose proof (pipeline_body_files (file_path uploaded_file σ)
                (audio_path uploaded_file σ) (file_extension uploaded_file)
                prompt_template (staged uploaded_file σ)) as Hbody.
  destruct (pipeline_body _ _ _ _ _) as [o σ1 l1]. cbn [files] in *.
  apply unstage; [done|]. intros p Hfp Hap.
  rewrite Hbody by done. by apply staged_other.
Qed.

(** *** Failure of a step *)

(** X2.  [process_file] raises in two cases only: the extension cannot
    be the suffix of a temp file, and the creation of the first temp file
    raises; or the extension is supported and one of the three steps
    raises.  The exception that leaves [process_file] is that of the
    creation or of the step: the [finally] block does not replace it. *)
Theorem process_file_raises uploaded_file prompt_template σ e :
  out (process_file uploaded_file prompt_template σ) = Raised e
  ↔ temp_suffix_error (file_extension uploaded_file) = Some e
    ∨ (supported (file_extension uploaded_file) = true
       ∧ step_raises uploaded_file prompt_template σ e).
Proof.
  split.
  - destruct (supported (file_extension uploaded_file)) eqn:Hs.
    + rewrite process_file_supported_run, pipeline_body_supported_run by done.
      unfold step_raises.
      destruct (extract_audio _ _ _) as [[[]|e1] σ1 l1] eqn:He.
      2:{ cbn [out]. intros [= ->]. right. split; [done|]. left. eauto. }
      destruct (transcribe_audio _ σ1) as [[t|e2] σ2 l2] eqn:Ht.
      2:{ cbn [out]. intros [= ->]. right. split; [done|]. right. left.
          by exists σ1, l1, σ2, l2. }
      destruct (analyze_text t _ σ2) as [[a|e3] σ3 l3] eqn:Ha; [done|].
      cbn [out]. intros [= ->]. right. split; [done|]. right. right.
      by exists σ1, l1, σ2, l2, t, σ3, l3.
    + destruct (temp_suffix_error (file_extension uploaded_file)) as [e0|] eqn:Hok.
      * rewrite (process_file_unstaged _ _ _ _ Hok). cbn [out].
        intros [= ->]. by left.
      * by rewrite process_file_unsupported.
  - intros [He|[Hs Hraise]].
    { by rewrite (process_file_unstaged _ _ _ _ He). }
    rewrite process_file_supported_run, pipeline_body_supported_run by done.
    destruct Hraise as [(σ1 & l1 & He)
                       |[(σ1 & l1 & σ2 & l2 & He & Ht)
                        |(σ1 & l1 & σ2 & l2 & t & σ3 & l3 & He & Ht & Ha)]].
    + by rewrite He.
    + by rewrite He, Ht.
    + by rewrite He, Ht, Ha.
Qed.

(** *** The [try] block in closed form *)

Lemma pipeline_body_supported_cases fp ap ext prompt_template σ :
  supported ext = true →
  is_Some (σ !! ap) →
  pipeline_body fp ap ext prompt_template σ =
    match σ !! fp with
    | None =>
        Result (Raised (FileNotFoundError fp)) σ
          [StSpinner (extraction_spinner ext); FromFileCalled fp]
    | Some d =>
        match decode fp d with
        | None =>
            Result (Raised (CouldntDecodeError fp)) σ
              [StSpinner (extraction_spinner ext); FromFileCalled fp]
        | Some au =>
            match whisper_transcribe ap (encode_wav au) with
            | None =>
                Result (Raised (TranscriptionError ap))
                  (<[ap := encode_wav au]> σ)
                  [ StSpinner (extraction_spinner ext); FromFileCalled fp;
                    FileWritten ap (encode_wav au);
                    StSpinner "Transcribing audio..."; TranscribeCalled ap ]
            | Some t =>
                match generate_content
                        (prompt_template
                         +:+ (nl +:+ nl +:+ "Transcription:" +:+ nl) +:+ t)
                with
                | None =>
                    Result (Raised (GenerationError
                                      (prompt_template
                                       +:+ (nl +:+ nl +:+ "Transcription:" +:+ nl)
                                       +:+ t)))
                      (<[ap := encode_wav au]> σ)
                      [ StSpinner (extraction_spinner ext); FromFileCalled fp;
                        FileWritten ap (encode_wav au);
                        StSpinner "Transcribing audio..."; TranscribeCalled ap;
                        StSpinner "Analyzing content...";
                        GenerateCalled
                          (prompt_template
                           +:+ (nl +:+ nl +:+ "Transcription:" +:+ nl) +:+ t) ]
                | Some a =>
                    Result (Returned (Some t, Some a))
                      (<[ap := encode_wav au]> σ)
                      [ StSpinner (extraction_spinner ext); FromFileCalled fp;
                        FileWritten ap (encode_wav au);
                        StSpinner "Transcribing audio..."; TranscribeCalled ap;
                        StSpinner "Analyzing content...";
                        GenerateCalled
                          (prompt_template
                           +:+ (nl +:+ nl +:+ "Transcription:" +:+ nl) +:+ t) ]
                end
            end
        end
    end.
Proof.
  intros Hs Hap.
  rewrite pipeline_body_supported_run, extract_audio_run by done.
  rewrite (open_error_existing ap σ Hap).
  destruct (σ !! fp) as [d|]; [|reflexivity].
  destruct (decode fp d) as [au|]; [|reflexivity].
  rewrite transcribe_audio_run, lookup_insert_eq.
  destruct (whisper_transcribe ap (encode_wav au)) as [t|]; [|reflexivity].
  cbv [analyze_text model_generate_content].
  destruct (generate_content _); reflexivity.
Qed.

(** *** How often the steps are called *)

Lemma count_events_app P l1 l2 :
  count_events P (l1 ++ l2) = (count_events P l1 + count_events P l2)%nat.
Proof. unfold count_events. by rewrite List.filter_app, length_app. Qed.

Lemma count_events_cleanup P fp ap σ :
  (∀ p, P (FileUnlinked p) = false) → count_events P (cleanup_log fp ap σ) = 0%nat.
Proof.
  intros HP. unfold cleanup_log, count_events.
  repeat case_bool_decide; cbn [app List.filter]; by rewrite ?HP.
Qed.

Lemma count_events_log P uploaded_file prompt_template σ :
  temp_suffix_error (file_extension uploaded_file) = None →
  (∀ p, P (FileUnlinked p) = false) →
  (∀ p, P (TempCreated p) = false) →
  (∀ p d, P (FileWritten p d) = false) →
  count_events P (log (process_file uploaded_file prompt_template σ))
  = count_events P
      (log (pipeline_body (file_path uploaded_file σ) (audio_path uploaded_file σ)
              (file_extension uploaded_file) prompt_template
              (staged uploaded_file σ))).
Proof.
  intros Hok HU HC HW. rewrite process_file_staged by done.
  destruct (pipeline_body _ _ _ _ _) as [o σ1 l1]. cbn [log].
  rewrite !count_events_app, count_events_cleanup by done.
  unfold staging_log, count_events at 1. cbn [List.filter].
  rewrite !HC, HW. cbn [length]. lia.
Qed.

Ltac count_calls :=
  unfold count_events;
  cbn [log List.filter length
       is_from_file_call is_transcribe_call is_generate_call];
  repeat split; lia.

(** X3.  No step is retried and the order is fixed: a run calls the audio
    extraction once when the extension is supported and never otherwise,
    transcribes at most once and only after an extraction, and asks the
    model at most once and only after a transcription. *)
Theorem steps_called_in_order_once uploaded_file prompt_template σ :
  count_events is_from_file_call
    (log (process_file uploaded_file prompt_template σ))
  = (if supported (file_extension uploaded_file) then 1 else 0)%nat
  ∧ (count_events is_transcribe_call
       (log (process_file uploaded_file prompt_template σ))
     ≤ count_events is_from_file_call
         (log (process_file uploaded_file prompt_template σ)))%nat
  ∧ (count_events is_generate_call
       (log (process_file uploaded_file prompt_template σ))
     ≤ count_events is_transcribe_call
         (log (process_file uploaded_file prompt_template σ)))%nat.
Proof.
  destruct (supported (file_extension uploaded_file)) eqn:Hs.
  - rewrite !count_events_log by (done || by apply supported_suffix_ok).
    rewrite pipeline_body_supported_cases
      by (done || (rewrite staged_audio; eauto)).
    destruct (_ !! _) as [d|]; [|count_calls].
    destruct (decode _ d) as [au|]; [|count_calls].
    destruct (whisper_transcribe _ _) as [t|]; [|count_calls].
    destruct (generate_content _); count_calls.
  - destruct (temp_suffix_error (file_extension uploaded_file)) as [e|] eqn:Hok.
    + rewrite (process_file_unstaged _ _ _ _ Hok). count_calls.
    + rewrite !count_events_log by done.
      rewrite pipeline_body_unsupported by done. count_calls.
Qed.

(** X4.  A step that raises ends the processing: after a failed
    extraction neither the transcriber nor the model is called, and after
    a failed transcription the model is not called. *)
Theorem failed_step_stops_run uploaded_file prompt_template σ :
  supported (file_extension uploaded_file) = true →
  (∀ e σ1 l1,
     extract_audio (file_path uploaded_file σ) (audio_path uploaded_file σ)
       (staged uploaded_file σ) = Result (Raised e) σ1 l1 →
     count_events is_transcribe_call
       (log (process_file uploaded_file prompt_template σ)) = 0%nat
     ∧ count_events is_generate_call
         (log (process_file uploaded_file prompt_template σ)) = 0%nat)
  ∧ (∀ e σ1 l1 σ2 l2,
       extract_audio (file_path uploaded_file σ) (audio_path uploaded_file σ)
         (staged uploaded_file σ) = Result (Returned tt) σ1 l1 →
       transcribe_audio (audio_path uploaded_file σ) σ1 = Result (Raised e) σ2 l2 →
       count_events is_generate_call
         (log (process_file uploaded_file prompt_template σ)) = 0%nat).
Proof.
  intros Hs. rewrite !count_events_log by (done || by apply supported_suffix_ok).
  rewrite pipeline_body_supported_run by done. split.
  - intros e σ1 l1 He. rewrite He. cbn [log].
    apply extract_audio_inv in He as [_ [->|[w ->]]]; count_calls.
  - intros e σ1 l1 σ2 l2 He Ht. rewrite He, Ht. cbn [log].
    apply extract_audio_inv in He as [_ [->|[w ->]]];
      apply transcribe_audio_inv in Ht as [_ ->]; count_calls.
Qed.

(** *** A run in which every step returns *)

(** X5.  With fresh temp names and a supported extension: when the upload
    decodes, the transcriber returns [t] on the WAV encoding of the decoded
    upload, and the model returns [a] on the prompt built from [t], then
    [process_file] returns [(Some t, Some a)], leaves the file system as it
    was, and does exactly this, in this order: create and write the input
    copy, create the WAV file, decode the copy, write the WAV, transcribe
    the WAV, ask the model, delete both files. *)
Theorem process_file_success uploaded_file prompt_template σ au t a :
  fresh_temp_names uploaded_file σ →
  supported (file_extension uploaded_file) = true →
  decode (file_path uploaded_file σ) (content uploaded_file) = Some au →
  whisper_transcribe (audio_path uploaded_file σ) (encode_wav au) = Some t →
  generate_content
    (prompt_template +:+ (nl +:+ nl +:+ "Transcription:" +:+ nl) +:+ t) = Some a →
  process_file uploaded_file prompt_template σ =
    Result (Returned (Some t, Some a)) σ
      [ TempCreated (file_path uploaded_file σ);
        FileWritten (file_path uploaded_file σ) (content uploaded_file);
        TempCreated (audio_path uploaded_file σ);
        StSpinner (extraction_spinner (file_extension uploaded_file));
        FromFileCalled (file_path uploaded_file σ);
        FileWritten (audio_path uploaded_file σ) (encode_wav au);
        StSpinner "Transcribing audio...";
        TranscribeCalled (audio_path uploaded_file σ);
        StSpinner "Analyzing content...";
        GenerateCalled
          (prompt_template +:+ (nl +:+ nl +:+ "Transcription:" +:+ nl) +:+ t);
        FileUnlinked (file_path uploaded_file σ);
        FileUnlinked (audio_path uploaded_file σ) ].
Proof.
  intros Hfresh Hs Hdec Hwh Hgen.
  pose proof (fresh_temp_names_distinct _ _ Hfresh) as Hne.
  rewrite process_file_supported_run by done.
  rewrite pipeline_body_supported_cases by (done || (rewrite staged_audio; eauto)).
  assert (Hfp : staged uploaded_file σ !! file_path uploaded_file σ
                = Some (content uploaded_file)).
  { unfold staged. by rewrite lookup_insert_ne, lookup_insert_eq. }
  rewrite Hfp, Hdec, Hwh, Hgen.
  rewrite (unstage _ _ _ Hfresh).
  2:{ intros p Hp1 Hp2. rewrite lookup_insert_ne by done. by apply staged_other. }
  unfold cleanup_log, staging_log.
  rewrite lookup_insert_ne, Hfp by done.
  rewrite lookup_delete_ne, lookup_insert_eq by done.
  rewrite !bool_decide_eq_true_2 by eauto. reflexivity.
Qed.

(** *** More on the audio normalizer *)


(** X7.  Extraction into another path can be repeated: a second call with
    the same arguments returns again, makes the same calls and leaves the
    file system as the first call left it. *)
Theorem extract_audio_idempotent fp op σ σ1 l :
  fp ≠ op →
  extract_audio fp op σ = Result (Returned tt) σ1 l →
  extract_audio fp op σ1 = Result (Returned tt) σ1 l.
Proof.
  intros Hne. rewrite !extract_audio_run.
  destruct (σ !! fp) as [d|] eqn:Hd; [|done].
  destruct (decode fp d) as [au|] eqn:Hau; [|done].
  destruct (open_error op σ) as [e|]; [done|].
  intros [= <- <-].
  rewrite lookup_insert_ne, Hd, Hau by done.
  rewrite open_error_existing by (rewrite lookup_insert_eq; eauto).
  by rewrite insert_insert_eq.
Qed.

(** *** More on the page *)

Lemma main_no_upload page σ :
  uploaded page = None →
  main page σ = Result (Returned tt) σ page_header.
Proof.
  intros Hup. unfold main. rewrite !run_bind. cbv [emit]. by rewrite Hup.
Qed.

Lemma main_not_pressed page uploaded_file σ :
  uploaded page = Some uploaded_file →
  button_pressed page = false →
  main page σ = Result (Returned tt) σ (page_header ++ [StButton "Process File"]).
Proof.
  intros Hup Hbtn. unfold main. rewrite !run_bind. cbv [emit].
  by rewrite Hup, Hbtn.
Qed.

(** X8.  Without an upload, or with an upload but the button not pressed,
    [main] only draws the page: it returns, touches no file, creates no
    temp file, calls none of the three steps and shows no result view. *)
Theorem main_idle page σ :
  uploaded page = None ∨ button_pressed page = false →
  out (main page σ) = Returned tt
  ∧ files (main page σ) = σ
  ∧ forallb (λ e, negb (is_pipeline_event e)) (log (main page σ)) = true
  ∧ result_views (log (main page σ)) = [].
Proof.
  intros Hidle. destruct (uploaded page) as [f|] eqn:Hup.
  - destruct Hidle as [?|Hbtn]; [done|].
    by rewrite (main_not_pressed _ _ _ Hup Hbtn).
  - by rewrite (main_no_upload _ _ Hup).
Qed.

(** X9.  When the pipeline raises, [main] raises the same exception and
    draws no result view: no partial result is shown. *)
Theorem main_propagates_failure page uploaded_file σ e σ1 l1 :
  uploaded page = Some uploaded_file →
  button_pressed page = true →
  process_file uploaded_file (prompt_text page) σ = Result (Raised e) σ1 l1 →
  out (main page σ) = Raised e
  ∧ files (main page σ) = σ1
  ∧ result_views (log (main page σ)) = [].
Proof.
  intros Hup Hbtn Hrun.
  pose proof (process_file_events uploaded_file (prompt_text page) σ) as Hev.
  rewrite (main_run _ _ _ Hup Hbtn), Hrun. rewrite Hrun in Hev.
  cbn [out files log] in *. split; [done|]. split; [done|].
  unfold result_views. rewrite List.filter_app.
  cbn [page_header List.filter is_result_view app].
  apply (result_views_pipeline l1 Hev).
Qed.

(** X10.  For an upload with an unsupported extension (one that can be
    the suffix of a temp file), [main] returns, the rejection message is
    on the page and no result view is. *)
Theorem main_rejected_upload page uploaded_file σ :
  uploaded page = Some uploaded_file →
  button_pressed page = true →
  supported (file_extension uploaded_file) = false →
  temp_suffix_error (file_extension uploaded_file) = None →
  out (main page σ) = Returned tt
  ∧ In (StError unsupported_message) (log (main page σ))
  ∧ result_views (log (main page σ)) = [].
Proof.
  intros Hup Hbtn Hs Hok.
  pose proof (process_file_events uploaded_file (prompt_text page) σ) as Hev.
  rewrite (main_run _ _ _ Hup Hbtn).
  rewrite process_file_unsupported in * by done.
  cbn [out log truthy andb] in *. split; [done|]. split.
  - apply in_or_app. right. right. apply in_or_app. left.
    apply in_or_app. right. by left.
  - rewrite app_nil_r. unfold result_views. rewrite List.filter_app.
    cbn [page_header List.filter is_result_view app].
    apply (result_views_pipeline _ Hev).
Qed.

(** X11.  [main] never leaves a temp file behind, whatever the page
    state and however the pipeline ends. *)
Theorem main_no_leftover page σ :
  leftover (main page σ) = 0%nat.
Proof.
  destruct (uploaded page) as [f|] eqn:Hup;
    [destruct (button_pressed page) eqn:Hbtn|].
  - rewrite (main_run _ _ _ Hup Hbtn), process_file_run.
    destruct (temp_suffix_error _) as [e0|]; [reflexivity|].
    pose proof (created_body_nil (file_path f σ) (audio_path f σ)
                  (file_extension f) (prompt_text page) (staged f σ)) as Hbody.
    destruct (pipeline_body _ _ _ _ _) as [[[t a]|e] σ1 l1];
      cbn [log] in Hbody; unfold leftover; cbn [files log];
      rewrite !created_app; cbn [created page_header app];
      rewrite !created_app, Hbody, created_cleanup_log; cbn [created app].
    + destruct (truthy t && truthy a)%bool; cbn [created show_results];
        apply count_existing_cleaned.
    + apply count_existing_cleaned.
  - by rewrite (main_not_pressed _ _ _ Hup Hbtn).
  - by rewrite (main_no_upload _ _ Hup).
Qed.
End Pipeline_more.

(** ** Further properties of the extension and of the credential *)

Lemma rfind_from_no_dot p i last :
  no_dot p = true → rfind_from "." p i last = last.
Proof.
  revert i last. induction p as [|a p IH]; intros i last; [done|].
  cbn [no_dot rfind_from]. intros [Ha Hp]%andb_prop.
  apply negb_true_iff in Ha. rewrite Ha. by apply IH.
Qed.

Lemma rfind_from_ge c p i last : last ≤ i → last ≤ rfind_from c p i last.
Proof.
  revert i last. induction p as [|a p IH]; intros i last Hle; [done|].
  cbn [rfind_from]. destruct (Ascii.eqb a c).
  - etrans; [exact Hle|]. apply IH. lia.
  - apply IH. lia.
Qed.

Lemma rfind_from_found c p i last :
  rfind_from c p i last = last
  ∨ (i ≤ rfind_from c p i last
     ∧ String.get (Z.to_nat (rfind_from c p i last - i)) p = Some c).
Proof.
  revert i last. induction p as [|a p IH]; intros i last; [by left|].
  cbn [rfind_from].
  destruct (IH (i + 1) (if Ascii.eqb a c then i else last)) as [Heq|[Hle Hget]].
  - rewrite Heq. destruct (Ascii.eqb_spec a c) as [->|_]; [|by left].
    right. split; [lia|]. by rewrite Z.sub_diag.
  - right. split; [lia|].
    replace (Z.to_nat (rfind_from c p (i + 1) (if Ascii.eqb a c then i else last) - i))
      with (S (Z.to_nat (rfind_from c p (i + 1)
                           (if Ascii.eqb a c then i else last) - (i + 1))))
      by lia.
    exact Hget.
Qed.

Lemma splitext_no_dot p : no_dot p = true → splitext p = (p, "").
Proof.
  intros Hp. unfold splitext, rfind. rewrite rfind_from_no_dot by done.
  pose proof (rfind_from_ge "/" p 0 (-1)) as Hsep.
  destruct (Z.ltb_spec (rfind_from "/" p 0 (-1)) (-1)) as [Hlt|_]; [lia|].
  reflexivity.
Qed.

Lemma str_take_drop k p : str_take k p +:+ str_drop k p = p.
Proof.
  revert p. induction k as [|k IH]; intros p; [by destruct p|].
  destruct p as [|a p]; [reflexivity|].
  cbn [str_take str_drop]. by rewrite append_cons, IH.
Qed.

Lemma lower_app (s t : string) : lower (s +:+ t) = lower s +:+ lower t.
Proof.
  induction s as [|a s IH]; [reflexivity|].
  rewrite append_cons. cbn [lower]. by rewrite append_cons, IH.
Qed.

Lemma get_str_drop k p a :
  String.get k p = Some a → ∃ rest, str_drop k p = String a rest.
Proof.
  revert p. induction k as [|k IH]; intros [|b p]; cbn [String.get str_drop];
    try done.
  - intros [= ->]. by eexists.
  - apply IH.
Qed.

Lemma splitext_join p : fst (splitext p) +:+ snd (splitext p) = p.
Proof.
  unfold splitext. destruct (_ && _)%bool; cbn [fst snd].
  - apply str_take_drop.
  - apply append_nil_r.
Qed.

Lemma splitext_dot p :
  snd (splitext p) = "" ∨ ∃ rest, snd (splitext p) = String "." rest.
Proof.
  unfold splitext, rfind.
  destruct (_ && _)%bool eqn:Hc; cbn [snd]; [|by left].
  apply andb_prop in Hc as [Hlt%Z.ltb_lt _].
  pose proof (rfind_from_ge "/" p 0 (-1)) as Hsep.
  destruct (rfind_from_found "." p 0 (-1)) as [Heq|[_ Hget]]; [lia|].
  rewrite Z.sub_0_r in Hget. right. by apply get_str_drop.
Qed.

(** X13.  The credential is absent exactly when neither source has it:
    [get_api_key] returns [None] if and only if the key is missing from the
    secrets store and the environment variable is not set. *)
Theorem get_api_key_none_iff (secrets environ : gmap string string) :
  get_api_key secrets environ = None
  ↔ secrets !! GOOGLE_API_KEY = None ∧ environ !! GOOGLE_API_KEY = None.
Proof.
  unfold get_api_key, secrets_getitem, os_getenv.
  destruct (secrets !! GOOGLE_API_KEY) as [v|].
  - split; [done|]. by intros [? _].
  - split; [by intros ->|]. by intros [_ ->].
Qed.

Section Extension_more.
Context `{Services}.

(** X12.  For an ASCII file name, the extension [process_file] compares
    is a suffix of the lower-cased file name, and it is either empty or
    starts with a dot. *)
Theorem file_extension_shape uploaded_file :
  is_ascii (name uploaded_file) = true →
  (∃ root, lower (name uploaded_file) = root +:+ file_extension uploaded_file)
  ∧ (file_extension uploaded_file = ""
     ∨ ∃ rest, file_extension uploaded_file = String "." rest).
Proof.
  intros Ha. rewrite file_extension_ascii by (by apply is_ascii_splitext).
  split.
  - exists (lower (fst (splitext (name uploaded_file)))).
    by rewrite <- lower_app, splitext_join.
  - destruct (splitext_dot (name uploaded_file)) as [->|[rest ->]]; [by left|].
    right. by exists (lower rest).
Qed.

(** X14.  An upload whose name has no dot has no extension and is
    rejected: the message is shown and [(None, None)] returned. *)
Theorem no_dot_rejected uploaded_file prompt_template σ :
  no_dot (name uploaded_file) = true →
  file_extension uploaded_file = ""
  ∧ out (process_file uploaded_file prompt_template σ) = Returned (None, None)
  ∧ In (StError unsupported_message)
       (log (process_file uploaded_file prompt_template σ)).
Proof.
  intros Hname.
  assert (Hext : file_extension uploaded_file = "").
  { unfold file_extension. by rewrite splitext_no_dot. }
  split; [exact Hext|].
  rewrite process_file_unsupported by (by rewrite Hext).
  cbn [out log]. split; [done|].
  apply in_or_app. right. by left.
Qed.
End Extension_more.


(** ** More runs on concrete inputs *)

Lemma process_file_restores_files_witness :
  fresh_temp_names (H := stub) talk_wav one_mp3
  ∧ files (process_file (H := stub) talk_wav "p" one_mp3) = one_mp3.
Proof.
  assert (Hfresh : fresh_temp_names (H := stub) talk_wav one_mp3)
    by (split; reflexivity).
  split; [exact Hfresh|].
  exact (process_file_restores_files (H := stub) talk_wav "p" one_mp3 Hfresh).
Defined.

Lemma process_file_raises_witness :
  out (process_file (H := stub_offline) talk_wav "p" ∅)
  = Raised (GenerationError
              ("p" +:+ (nl +:+ nl +:+ "Transcription:" +:+ nl) +:+ "heard RIFFhello")).
Proof.
  apply (proj2 (process_file_raises (H := stub_offline) talk_wav "p" ∅ _)).
  right. split; [reflexivity|].
  right. right. unfold steps_return.
  do 7 eexists.
  split; [vm_compute; reflexivity|].
  split; vm_compute; reflexivity.
Defined.

Lemma failed_step_stops_run_witness :
  (count_events is_transcribe_call (log (process_file (H := stub) empty_wav "p" ∅))
   = 0%nat
   ∧ count_events is_generate_call (log (process_file (H := stub) empty_wav "p" ∅))
     = 0%nat)
  ∧ count_events is_generate_call (log (process_file (H := stub_deaf) talk_wav "p" ∅))
    = 0%nat.
Proof.
  split.
  - eapply (proj1 (failed_step_stops_run (H := stub) empty_wav "p" ∅ eq_refl)).
    vm_compute. reflexivity.
  - eapply (proj2 (failed_step_stops_run (H := stub_deaf) talk_wav "p" ∅ eq_refl)).
    + vm_compute. reflexivity.
    + vm_compute. reflexivity.
Defined.

Lemma process_file_success_witness :
  files (process_file (H := stub) talk_wav "p" ∅) = ∅
  ∧ out (process_file (H := stub) talk_wav "p" ∅)
    = Returned (Some "heard RIFFhello",
                Some ("analysis of p" +:+ nl +:+ nl +:+ "Transcription:" +:+ nl
                      +:+ "heard RIFFhello"))
  ∧ length (log (process_file (H := stub) talk_wav "p" ∅)) = 12%nat.
Proof.
  assert (Hfresh : fresh_temp_names (H := stub) talk_wav ∅)
    by (split; reflexivity).
  rewrite (process_file_success (H := stub) talk_wav "p" ∅
             "hello" "heard RIFFhello"
             ("analysis of p" +:+ nl +:+ nl +:+ "Transcription:" +:+ nl
              +:+ "heard RIFFhello")
             Hfresh eq_refl eq_refl eq_refl eq_refl).
  repeat split.
Defined.


Lemma extract_audio_idempotent_witness :
  extract_audio (H := stub) "in.mp3" "out.wav" (<[ "out.wav" := "RIFFabc" ]> one_mp3)
  = Result (Returned tt) (<[ "out.wav" := "RIFFabc" ]> one_mp3)
      [ FromFileCalled "in.mp3"; FileWritten "out.wav" "RIFFabc" ].
Proof.
  apply (extract_audio_idempotent (H := stub) "in.mp3" "out.wav" one_mp3).
  - discriminate.
  - vm_compute. reflexivity.
Defined.

Lemma main_idle_witness :
  (out (main (H := stub) idle_page one_mp3) = Returned tt
   ∧ files (main (H := stub) idle_page one_mp3) = one_mp3
   ∧ forallb (λ e, negb (is_pipeline_event e))
       (log (main (H := stub) idle_page one_mp3)) = true
   ∧ result_views (log (main (H := stub) idle_page one_mp3)) = [])
  ∧ (out (main (H := stub) unpressed_page one_mp3) = Returned tt
     ∧ files (main (H := stub) unpressed_page one_mp3) = one_mp3
     ∧ forallb (λ e, negb (is_pipeline_event e))
         (log (main (H := stub) unpressed_page one_mp3)) = true
     ∧ result_views (log (main (H := stub) unpressed_page one_mp3)) = []).
Proof.
  split.
  - apply (main_idle (H := stub) idle_page one_mp3). left. reflexivity.
  - apply (main_idle (H := stub) unpressed_page one_mp3). right. reflexivity.
Defined.

Lemma main_propagates_failure_witness :
  out (main (H := stub_offline) talk_page ∅)
  = Raised (GenerationError
              ("p" +:+ (nl +:+ nl +:+ "Transcription:" +:+ nl) +:+ "heard RIFFhello"))
  ∧ files (main (H := stub_offline) talk_page ∅) = ∅
  ∧ result_views (log (main (H := stub_offline) talk_page ∅)) = [].
Proof.
  eapply (main_propagates_failure (H := stub_offline) talk_page talk_wav ∅).
  - reflexivity.
  - reflexivity.
  - vm_compute. reflexivity.
Defined.

Lemma main_rejected_upload_witness :
  out (main (H := stub) notes_page ∅) = Returned tt
  ∧ In (StError unsupported_message) (log (main (H := stub) notes_page ∅))
  ∧ result_views (log (main (H := stub) notes_page ∅)) = [].
Proof.
  apply (main_rejected_upload (H := stub) notes_page notes_txt ∅); reflexivity.
Defined.

Lemma file_extension_shape_witness :
  (∃ root, lower "clip.MP4" = root +:+ file_extension (H := stub) clip_MP4)
  ∧ (file_extension (H := stub) clip_MP4 = ""
     ∨ ∃ rest, file_extension (H := stub) clip_MP4 = String "." rest).
Proof.
  apply (file_extension_shape (H := stub) clip_MP4). reflexivity.
Defined.

Lemma get_api_key_none_iff_witness :
  get_api_key ∅ ∅ = None.
Proof.
  apply (proj2 (get_api_key_none_iff ∅ ∅)). split; reflexivity.
Defined.

Lemma no_dot_rejected_witness :
  no_dot (name README) = true
  ∧ file_extension (H := stub) README = ""
  ∧ out (process_file (H := stub) README "p" ∅) = Returned (None, None)
  ∧ In (StError unsupported_message) (log (process_file (H := stub) README "p" ∅)).
Proof.
  split; [reflexivity|].
  apply (no_dot_rejected (H := stub) README "p" ∅). reflexivity.
Defined.
